(** * AWS SES (via SNS) webhook handler of django-post_office

    A shallow embedding of [post_office/webhooks/ses.py]
    ([SESWebhookHandler]) and the properties of its notification parsing.

    Python values that reach the handler come out of [json.loads], so they
    are modelled by the type [json] below.  Exceptions and log records are
    threaded explicitly through a small writer-and-error monad [M].  The
    three standard-library functions the handler relies on ([json.loads],
    [datetime.fromisoformat] and the [str()] rendering used by f-strings)
    are an interface ([PyLib]): every theorem holds for every
    implementation of it, and [RefLib] is an executable one on which the
    test-suite of the repository is replayed. *)

From Stdlib Require Import String Ascii List ZArith Bool Lia.
From Stdlib Require Import SpecFloat DecimalString.
Import ListNotations.

Local Open Scope string_scope.
Local Open Scope list_scope.

(** ** Python values *)

(** What [json.loads] can return: [None], [bool], [int], [float], [str],
    [list] and [dict] with [str] keys.  A [dict] keeps its items in
    insertion order; lookups take the first binding of a key.  A [str] is
    represented by the UTF-8 bytes of its characters (a lone surrogate by
    the three bytes of its code). *)
#[warnings="-register-all"]
Inductive json : Type :=
| JNull
| JBool (b : bool)
| JInt (n : Z)
| JFloat (x : spec_float)
| JStr (s : string)
| JArr (items : list json)
| JObj (members : list (string * json)).

(** The exceptions that the handler can meet.  [JSONDecodeError] and
    [UnicodeDecodeError] are subclasses of [ValueError]; all of them are
    subclasses of [Exception]. *)
Inductive exn : Type :=
| JSONDecodeError
| UnicodeDecodeError
| ValueError
| TypeError
| AttributeError
| RecursionError
| OtherError (name : string).

Inductive log_level : Type := DEBUG | INFO | WARNING | ERROR.

Inductive log_arg : Type :=
| ArgValue (v : json)
| ArgExn (e : exn).

(** A record written to [logger]: the level, the literal text of the
    message (each interpolated field of an f-string left as a pair of
    braces) and the interpolated values in order. *)
Record log_record : Type := LogRecord {
  levelname : log_level;
  msg : string;
  args : list log_arg
}.

(** ** Computations that may raise and that write to the log *)

Inductive outcome (A : Type) : Type :=
| Ok (a : A)
| Raise (e : exn).
Arguments Ok {A} a.
Arguments Raise {A} e.

Definition M (A : Type) : Type := (outcome A * list log_record)%type.

Definition ret {A} (a : A) : M A := (Ok a, []).

Definition raise {A} (e : exn) : M A := (Raise e, []).

Definition bind {A B} (m : M A) (f : A -> M B) : M B :=
  match m with
  | (Ok a, l) => let (r, l') := f a in (r, l ++ l')
  | (Raise e, l) => (Raise e, l)
  end.

(** A call of the library: its value or its exception, and no record. *)
Definition lift {A} (o : outcome A) : M A := (o, []).

Definition log (lvl : log_level) (text : string) (a : list log_arg) : M unit :=
  (Ok tt, [LogRecord lvl text a]).

(** [try: body / except classes as e: handler e] *)
Definition try_except {A} (body : M A) (classes : exn -> bool)
           (handler : exn -> M A) : M A :=
  match body with
  | (Raise e, l) =>
      if classes e then let (r, l') := handler e in (r, l ++ l')
      else (Raise e, l)
  | done => done
  end.

Declare Scope py_scope.
Delimit Scope py_scope with py.
Notation "x <- m ;; k" := (bind m (fun x => k))
  (at level 61, m at next level, right associativity) : py_scope.
Notation "m ;; k" := (bind m (fun _ => k))
  (at level 61, right associativity) : py_scope.
Local Open Scope py_scope.

Definition result {A} (m : M A) : outcome A := fst m.
Definition records {A} (m : M A) : list log_record := snd m.

(** The [except] clauses of the source. *)
Definition except_JSONDecodeError (e : exn) : bool :=
  match e with JSONDecodeError => true | _ => false end.

Definition except_ValueError_TypeError (e : exn) : bool :=
  match e with
  | JSONDecodeError | UnicodeDecodeError | ValueError | TypeError => true
  | _ => false
  end.

Definition except_Exception (e : exn) : bool := true.

(** ** The operations of Python that the handler performs on values *)

Fixpoint dict_lookup (key : string) (d : list (string * json)) : option json :=
  match d with
  | [] => None
  | (k, v) :: rest => if String.eqb k key then Some v else dict_lookup key rest
  end.

(** [d.get(key, default)] on a [dict]. *)
Definition dict_get (d : list (string * json)) (key : string) (default : json)
  : json :=
  match dict_lookup key d with
  | Some v => v
  | None => default
  end.

(** [o.get(key, default)]: only a [dict] has the attribute [get]. *)
Definition py_get (o : json) (key : string) (default : json) : M json :=
  match o with
  | JObj d => ret (dict_get d key default)
  | _ => raise AttributeError
  end.

(** Truth value of an object, as tested by [if] and [not]. *)
Definition truthy (v : json) : bool :=
  match v with
  | JNull => false
  | JBool b => b
  | JInt n => negb (Z.eqb n 0)
  | JFloat (S754_zero _) => false
  | JFloat _ => true
  | JStr s => negb (String.eqb s "")
  | JArr items => match items with [] => false | _ => true end
  | JObj members => match members with [] => false | _ => true end
  end.

(** [v == 'literal']: only an equal [str] compares equal to a [str]. *)
Definition py_eq_str (v : json) (literal : string) : bool :=
  match v with
  | JStr s => String.eqb s literal
  | _ => false
  end.

(** A byte of the form 10xxxxxx, which continues a character in UTF-8. *)
Definition is_continuation_byte (c : ascii) : bool :=
  let n := nat_of_ascii c in ((128 <=? n) && (n <? 192))%nat.

(** Splits the bytes of a [str] into its characters, from the right: the
    continuation bytes met before their lead byte, and the characters. *)
Fixpoint split_characters (s : string) : string * list string :=
  match s with
  | EmptyString => (EmptyString, [])
  | String c rest =>
      let (pending, chars) := split_characters rest in
      if is_continuation_byte c then (String c pending, chars)
      else (EmptyString, String c pending :: chars)
  end.

(** The characters of a [str]: each is a lead byte with the continuation
    bytes that follow it. *)
Definition str_characters (s : string) : list string :=
  match split_characters s with
  | (EmptyString, chars) => chars
  | (stray, chars) => stray :: chars
  end.

(** The items that [for x in v] runs over: the elements of a [list], the
    characters of a [str], the keys of a [dict]; other objects are not
    iterable. *)
Definition py_iter (v : json) : M (list json) :=
  match v with
  | JArr items => ret items
  | JStr s => ret (map JStr (str_characters s))
  | JObj members => ret (map (fun kv => JStr (fst kv)) members)
  | _ => raise TypeError
  end.

(** The loop [for x in items: s = body x s]. *)
Fixpoint for_each {S : Type} (items : list json) (body : json -> S -> M S)
         (s : S) : M S :=
  match items with
  | [] => ret s
  | x :: rest => s' <- body x s ;; for_each rest body s'
  end.

Definition py_for {S : Type} (iterable : json) (body : json -> S -> M S)
           (s : S) : M S :=
  items <- py_iter iterable ;;
  for_each items body s.

(** [s.replace(old, new)] for a one-character [old], as the handler calls
    it: every occurrence is replaced. *)
Fixpoint str_replace (old : ascii) (new : string) (s : string) : string :=
  match s with
  | EmptyString => EmptyString
  | String c rest =>
      if Ascii.eqb c old then new ++ str_replace old new rest
      else String c (str_replace old new rest)
  end.

(** [v.replace('Z', '+00:00')]: only a [str] has the attribute [replace]. *)
Definition py_replace (v : json) (old : ascii) (new : string) : M string :=
  match v with
  | JStr s => ret (str_replace old new s)
  | _ => raise AttributeError
  end.

(** ** Datetimes *)

(** [datetime.datetime]; [utcoffset] is [None] for a naive datetime and the
    offset of its fixed [timezone] in microseconds otherwise. *)
Record datetime : Type := Datetime {
  year : Z;
  month : Z;
  day : Z;
  hour : Z;
  minute : Z;
  second : Z;
  microsecond : Z;
  utcoffset : option Z
}.

(** ** The standard-library functions used by the handler *)

Class PyLib : Type := {
  (** [json.loads(s)] for a [str] [s]: the decoded value or the exception
      that the call raises, be it [json.JSONDecodeError] or another one. *)
  json_loads : string -> outcome json;
  (** [json.loads(b)] for [bytes] [b], likewise. *)
  json_loads_bytes : string -> outcome json;
  (** [datetime.fromisoformat(s)] on a [str]: [None] stands for
      [ValueError]. *)
  fromisoformat : string -> option datetime;
  (** [format(v, '')], the rendering of an f-string field. *)
  py_format : json -> string;
  (** The rendering of a [str] is the [str] itself. *)
  py_format_str : forall s, py_format (JStr s) = s
}.

(** ** Collaborators declared outside [ses.py] *)

(** Modelled from the spec: [RecipientDeliveryStatus] of
    [post_office.models], of which the handler uses the four members that
    section 3 lists. *)
Inductive RecipientDeliveryStatus : Type :=
| DELIVERED
| HARD_BOUNCED
| SOFT_BOUNCED
| SPAM_COMPLAINT.

(** Modelled from the spec: [ESPEvent] of [post_office.webhooks.base] (the
    NormalizedEvent of section 3), a plain record of the seven keyword
    arguments that the handler passes.  Its construction checks no types, so
    the passed-through fields hold whatever the notification held. *)
Record ESPEvent : Type := mkESPEvent {
  raw_event : string;
  delivery_status : RecipientDeliveryStatus;
  recipient : json;
  message_id : json;
  timestamp : option datetime;
  subject : json;
  to_addresses : json
}.

Record HttpRequest : Type := mkHttpRequest { body : string }.

(** [JsonResponse(data, status=...)] *)
Record HttpResponse : Type := JsonResponse {
  content : json;
  status_code : Z
}.

(** The argument of [parse_events]: [HttpRequest | dict]. *)
Inductive request_or_payload : Type :=
| OfRequest (request : HttpRequest)
| OfPayload (payload : json).

(** The methods that [post] and [_handle_notification] reach through
    [self].  [handle_events] is inherited from [BaseWebhookHandler]. *)
Record Handler : Type := mkHandler {
  self_verify_signature : HttpRequest -> M bool;
  self_parse_events : request_or_payload -> M (list ESPEvent);
  self_handle_events : list ESPEvent -> json -> M unit
}.

(** ** The handler *)

Section SESWebhookHandler.

Context {L : PyLib}.

(** [json.loads(v)]: text is decoded, any other object is a [TypeError]. *)
Definition py_json_loads (v : json) : M json :=
  match v with
  | JStr s => lift (json_loads s)
  | _ => raise TypeError
  end.

(** [json.loads(request.body)] *)
Definition json_loads_body (request : HttpRequest) : M json :=
  lift (json_loads_bytes (body request)).

(** [datetime.fromisoformat(s)] *)
Definition datetime_fromisoformat (s : string) : M datetime :=
  match fromisoformat s with
  | Some d => ret d
  | None => raise ValueError
  end.

(** [SESWebhookHandler.verify_signature] *)
Definition verify_signature (request : HttpRequest) : M bool :=
  ret true.

(** The block "Parse timestamp" of [parse_events]. *)
Definition parse_timestamp (mail_data : json) : M (option datetime) :=
  let timestamp := None in
  ts <- py_get mail_data "timestamp" JNull ;;
  if truthy ts then
    try_except
      (replaced <- py_replace ts "Z"%char "+00:00" ;;
       parsed <- datetime_fromisoformat replaced ;;
       ret (Some parsed))
      except_ValueError_TypeError
      (fun _ => ret timestamp)
  else ret timestamp.

(** [SESWebhookHandler.parse_events] *)
Definition parse_events (request : request_or_payload) : M (list ESPEvent) :=
  payload <-
    match request with
    | OfRequest http =>
        try_except (json_loads_body http) except_JSONDecodeError
          (fun e => log ERROR "Failed to parse SES webhook JSON" [] ;; raise e)
    | OfPayload p => ret p
    end ;;
  let events := [] in
  message_str <- py_get payload "Message" (JStr "") ;;
  if negb (truthy message_str) then
    log WARNING "No Message in SNS payload" [] ;;
    ret events
  else
  decoded <-
    try_except (message <- py_json_loads message_str ;; ret (Some message))
      except_JSONDecodeError
      (fun _ => log ERROR "Failed to parse inner SNS Message JSON" [] ;;
                ret None) ;;
  match decoded with
  | None => ret events
  | Some message =>
  notification_type <- py_get message "notificationType" (JStr "") ;;
  mail_data <- py_get message "mail" (JObj []) ;;
  message_id <- py_get mail_data "messageId" JNull ;;
  destinations <- py_get mail_data "destination" (JArr []) ;;
  common_headers <- py_get mail_data "commonHeaders" (JObj []) ;;
  subject <- py_get common_headers "subject" JNull ;;
  timestamp <- parse_timestamp mail_data ;;
  if py_eq_str notification_type "Delivery" then
    delivery_data <- py_get message "delivery" (JObj []) ;;
    recipients <- py_get delivery_data "recipients" destinations ;;
    py_for recipients
      (fun recipient events =>
         ret (events ++
              [mkESPEvent "Delivery" DELIVERED recipient message_id
                          timestamp subject destinations]))
      events
  else if py_eq_str notification_type "Bounce" then
    bounce_data <- py_get message "bounce" (JObj []) ;;
    bounce_type <- py_get bounce_data "bounceType" (JStr "Permanent") ;;
    bounced_recipients <- py_get bounce_data "bouncedRecipients" (JArr []) ;;
    let status :=
      if py_eq_str bounce_type "Transient" then SOFT_BOUNCED
      else HARD_BOUNCED in
    py_for bounced_recipients
      (fun recipient_info events =>
         recipient <- py_get recipient_info "emailAddress" (JStr "") ;;
         if truthy recipient then
           ret (events ++
                [mkESPEvent ("Bounce:" ++ py_format bounce_type) status
                            recipient message_id timestamp subject
                            destinations])
         else ret events)
      events
  else if py_eq_str notification_type "Complaint" then
    complaint_data <- py_get message "complaint" (JObj []) ;;
    complained_recipients <-
      py_get complaint_data "complainedRecipients" (JArr []) ;;
    py_for complained_recipients
      (fun recipient_info events =>
         recipient <- py_get recipient_info "emailAddress" (JStr "") ;;
         if truthy recipient then
           ret (events ++
                [mkESPEvent "Complaint" SPAM_COMPLAINT recipient message_id
                            timestamp subject destinations])
         else ret events)
      events
  else
    log DEBUG "Ignoring unmapped SES notification type: {}"
        [ArgValue notification_type] ;;
    ret events
  end.

(** [SESWebhookHandler._handle_subscription_confirmation] *)
Definition _handle_subscription_confirmation (payload : json)
  : M HttpResponse :=
  subscribe_url <- py_get payload "SubscribeURL" JNull ;;
  topic_arn <- py_get payload "TopicArn" JNull ;;
  log INFO
      "SNS subscription confirmation received. TopicArn: {}, SubscribeURL: {}"
      [ArgValue topic_arn; ArgValue subscribe_url] ;;
  ret (JsonResponse
         (JObj [("status", JStr "subscription_confirmation_received");
                ("topic_arn", topic_arn);
                ("subscribe_url", subscribe_url)])
         200).

(** [SESWebhookHandler._handle_notification] *)
Definition _handle_notification (self : Handler) (payload : json)
  : M HttpResponse :=
  parsed <-
    try_except
      (events <- self_parse_events self (OfPayload payload) ;;
       ret (inr events))
      except_Exception
      (fun e =>
         log ERROR "Error parsing SES events: {}" [ArgExn e] ;;
         ret (inl (JsonResponse (JObj [("error", JStr "Failed to parse events")])
                                400))) ;;
  match parsed with
  | inl response => ret response
  | inr events =>
      self_handle_events self events payload ;;
      ret (JsonResponse
             (JObj [("status", JStr "ok");
                    ("processed", JInt (Z.of_nat (length events)))])
             200)
  end.

(** [SESWebhookHandler.post] *)
Definition post (self : Handler) (request : HttpRequest) : M HttpResponse :=
  verified <- self_verify_signature self request ;;
  if negb verified then
    log WARNING "SNS signature verification failed" [] ;;
    ret (JsonResponse (JObj [("error", JStr "Invalid signature")]) 401)
  else
  loaded <-
    try_except (payload <- json_loads_body request ;; ret (inr payload))
      except_JSONDecodeError
      (fun e =>
         log ERROR "Failed to parse SNS payload: {}" [ArgExn e] ;;
         ret (inl (JsonResponse (JObj [("error", JStr "Invalid JSON")]) 400))) ;;
  match loaded with
  | inl response => ret response
  | inr payload =>
  message_type <- py_get payload "Type" (JStr "") ;;
  if py_eq_str message_type "SubscriptionConfirmation" then
    _handle_subscription_confirmation payload
  else if py_eq_str message_type "UnsubscribeConfirmation" then
    log INFO "Received SNS UnsubscribeConfirmation" [] ;;
    ret (JsonResponse (JObj [("status", JStr "ok")]) 200)
  else if py_eq_str message_type "Notification" then
    _handle_notification self payload
  else
    log WARNING "Unknown SNS message type: {}" [ArgValue message_type] ;;
    ret (JsonResponse (JObj [("error", JStr "Unknown message type")]) 400)
  end.

(** The handler class: its own [verify_signature] and [parse_events], and
    the [handle_events] it inherits. *)
Definition SESWebhookHandler
           (handle_events : list ESPEvent -> json -> M unit) : Handler :=
  mkHandler verify_signature parse_events handle_events.

End SESWebhookHandler.

(** ** An executable implementation of [PyLib]

    [RefLib] follows CPython 3.11: [json.loads] with its C scanner, on text
    and on bytes (whose encoding it detects as the library does), with the
    two bounds that make the call raise something else than
    [JSONDecodeError]: the nesting depth ([RecursionError]) and the number
    of digits of an integer ([ValueError]).  The depth at which CPython
    gives up is its recursion limit less the frames in use at the call;
    [nesting_limit] is the depth measured for a call from the top level.
    [fromisoformat] reads the formats of Python 3.7 to 3.10, those that
    [datetime.isoformat] writes.  [RefLib] serves to run the handler on
    concrete notifications. *)

Module Ref.

Definition code (c : ascii) : Z := Z.of_nat (nat_of_ascii c).

Definition byte (n : Z) : ascii := ascii_of_nat (Z.to_nat n).

(** *** Text encodings *)

(** The UTF-8 bytes of a code point; a surrogate is encoded like any other
    code point of its range. *)
Definition utf8_encode (cp : Z) : string :=
  (if cp <? 128 then String (byte cp) ""
   else if cp <? 2048 then
     String (byte (192 + cp / 64)) (String (byte (128 + cp mod 64)) "")
   else if cp <? 65536 then
     String (byte (224 + cp / 4096))
       (String (byte (128 + (cp / 64) mod 64))
          (String (byte (128 + cp mod 64)) ""))
   else
     String (byte (240 + cp / 262144))
       (String (byte (128 + (cp / 4096) mod 64))
          (String (byte (128 + (cp / 64) mod 64))
             (String (byte (128 + cp mod 64)) ""))))%Z.

(** Well-formed UTF-8, encoded surrogates included (the error handler
    [surrogatepass] of [json.loads]). *)
Fixpoint utf8_valid (s : string) : bool :=
  match s with
  | EmptyString => true
  | String a rest =>
      let n := code a in
      (if n <? 128 then utf8_valid rest
       else if n <? 194 then false
       else if n <? 224 then
         match rest with
         | String b rest' => is_continuation_byte b && utf8_valid rest'
         | _ => false
         end
       else if n <? 240 then
         match rest with
         | String b (String c rest') =>
             is_continuation_byte b && is_continuation_byte c
             && (if n =? 224 then 160 <=? code b else true)
             && utf8_valid rest'
         | _ => false
         end
       else if n <? 245 then
         match rest with
         | String b (String c (String d rest')) =>
             is_continuation_byte b && is_continuation_byte c
             && is_continuation_byte d
             && (if n =? 240 then 144 <=? code b
                 else if n =? 244 then code b <? 144
                 else true)
             && utf8_valid rest'
         | _ => false
         end
       else false)%Z
  end.

Fixpoint utf16_units (big_endian : bool) (s : string) : option (list Z) :=
  match s with
  | EmptyString => Some []
  | String a (String b rest) =>
      match utf16_units big_endian rest with
      | Some units =>
          Some ((if big_endian then 256 * code a + code b
                 else 256 * code b + code a)%Z :: units)
      | None => None
      end
  | String _ EmptyString => None
  end.

Definition is_high_surrogate (u : Z) : bool := ((55296 <=? u) && (u <? 56320))%Z.
Definition is_low_surrogate (u : Z) : bool := ((56320 <=? u) && (u <? 57344))%Z.

Definition join_surrogates (high low : Z) : Z :=
  (65536 + (high - 55296) * 1024 + (low - 56320))%Z.

(** The text of UTF-16 units: a pair of surrogates is one character, a lone
    surrogate is kept. *)
Fixpoint utf16_text (units : list Z) : string :=
  match units with
  | [] => EmptyString
  | u :: rest =>
      match rest with
      | v :: rest' =>
          if is_high_surrogate u && is_low_surrogate v
          then (utf8_encode (join_surrogates u v) ++ utf16_text rest')%string
          else (utf8_encode u ++ utf16_text rest)%string
      | [] => utf8_encode u
      end
  end.

Fixpoint utf32_text (big_endian : bool) (s : string) : option string :=
  match s with
  | EmptyString => Some EmptyString
  | String a (String b (String c (String d rest))) =>
      let cp :=
        (if big_endian
         then ((code a * 256 + code b) * 256 + code c) * 256 + code d
         else ((code d * 256 + code c) * 256 + code b) * 256 + code a)%Z in
      match utf32_text big_endian rest with
      | Some text =>
          if (cp <=? 1114111)%Z then Some (utf8_encode cp ++ text)%string
          else None
      | None => None
      end
  | _ => None
  end.

Definition drop (n : nat) (s : string) : string :=
  substring n (String.length s - n) s.

Definition byte_is (pos : nat) (n : nat) (s : string) : bool :=
  match get pos s with
  | Some c => Nat.eqb (nat_of_ascii c) n
  | None => false
  end.

Definition decode_utf16 (big_endian : bool) (s : string) : option string :=
  match utf16_units big_endian s with
  | Some units => Some (utf16_text units)
  | None => None
  end.

Definition decode_utf8 (s : string) : option string :=
  if utf8_valid s then Some s else None.

(** [b.decode(detect_encoding(b), 'surrogatepass')]: the text of the bytes
    [b], or [None] for [UnicodeDecodeError]. *)
Definition decode_bytes (b : string) : option string :=
  let has := fun pos n => byte_is pos n b in
  if has 0 0 && has 1 0 && has 2 254 && has 3 255 then utf32_text true (drop 4 b)
  else if has 0 255 && has 1 254 && has 2 0 && has 3 0
  then utf32_text false (drop 4 b)
  else if has 0 254 && has 1 255 then decode_utf16 true (drop 2 b)
  else if has 0 255 && has 1 254 then decode_utf16 false (drop 2 b)
  else if has 0 239 && has 1 187 && has 2 191 then decode_utf8 (drop 3 b)
  else if (4 <=? String.length b)%nat then
    if has 0 0 then
      if has 1 0 then utf32_text true b else decode_utf16 true b
    else if has 1 0 then
      if has 2 0 && has 3 0 then utf32_text false b else decode_utf16 false b
    else decode_utf8 b
  else if Nat.eqb (String.length b) 2 then
    if has 0 0 then decode_utf16 true b
    else if has 1 0 then decode_utf16 false b
    else decode_utf8 b
  else decode_utf8 b.

(** *** Numbers *)

Definition digit_value (c : ascii) : option Z :=
  let n := code c in
  if (48 <=? n)%Z && (n <=? 57)%Z then Some (n - 48)%Z else None.

(** Reads the longest run of digits, accumulating its value. *)
Fixpoint scan_digits (s : string) (acc : Z) (seen : nat) : Z * nat * string :=
  match s with
  | String c rest =>
      match digit_value c with
      | Some d => scan_digits rest (10 * acc + d)%Z (S seen)
      | None => (acc, seen, s)
      end
  | EmptyString => (acc, seen, s)
  end.

Definition some_digits (s : string) : option (Z * nat * string) :=
  match scan_digits s 0 0 with
  | (_, O, _) => None
  | found => Some found
  end.

(** The integer part: one zero, or digits that do not start with zero. *)
Definition scan_integer_part (s : string) : option (Z * nat * string) :=
  match s with
  | String "0"%char rest => Some (0%Z, 1%nat, rest)
  | _ => some_digits s
  end.

(** A point followed by digits. *)
Definition scan_fraction (s : string) : option (Z * nat * string) :=
  match s with
  | String "."%char rest => some_digits rest
  | _ => None
  end.

(** [e] or [E], an optional sign, and digits. *)
Definition scan_exponent (s : string) : option (Z * string) :=
  match s with
  | String c rest =>
      if Ascii.eqb c "e" || Ascii.eqb c "E" then
        let (negative, digits) :=
          match rest with
          | String "-"%char r => (true, r)
          | String "+"%char r => (false, r)
          | _ => (false, rest)
          end in
        match some_digits digits with
        | Some (n, _, after) => Some ((if negative then - n else n)%Z, after)
        | None => None
        end
      else None
  | EmptyString => None
  end.

Definition prec : Z := 53.
Definition emax : Z := 1024.

(** The binary64 number nearest to [m * 10 ^ e10], ties to even: what
    [float] makes of a decimal literal. *)
Definition decimal_float (negative : bool) (m e10 : Z) : spec_float :=
  match m with
  | Zpos mantissa =>
      let bound := ((Z.log2 m + 3) / 3 + e10)%Z in
      if (310 <=? e10)%Z then S754_infinity negative
      else if (bound <=? -325)%Z then S754_zero negative
      else if (0 <=? e10)%Z then
        match (m * 10 ^ e10)%Z with
        | Zpos n => binary_round prec emax negative n 0
        | _ => S754_nan
        end
      else
        let k := (- e10)%Z in
        let s := (4 * k + 64)%Z in
        let divisor := (10 ^ k)%Z in
        let q := ((m * 2 ^ s) / divisor)%Z in
        let r := ((m * 2 ^ s) mod divisor)%Z in
        let location :=
          if (r =? 0)%Z then loc_Exact
          else loc_Inexact (Z.compare (2 * r) divisor) in
        binary_round_aux prec emax negative q (- s) location
  | _ => S754_zero negative
  end.

(** The most digits that [int] converts (sys.int_info.default_max_str_digits). *)
Definition max_str_digits : nat := 4300.

(** A number, after its sign: a float when it has a fraction or an
    exponent, an integer otherwise. *)
Definition scan_number (negative : bool) (s : string)
  : outcome (json * string) :=
  match scan_integer_part s with
  | None => Raise JSONDecodeError
  | Some (whole, digits, rest) =>
      let '(fraction, fraction_digits, rest1) :=
        match scan_fraction rest with
        | Some (f, n, after) => (Some f, n, after)
        | None => (None, O, rest)
        end in
      let '(exponent, rest2) :=
        match scan_exponent rest1 with
        | Some (e, after) => (Some e, after)
        | None => (None, rest1)
        end in
      match fraction, exponent with
      | None, None =>
          if (max_str_digits <? digits)%nat then Raise ValueError
          else Ok (JInt (if negative then - whole else whole)%Z, rest2)
      | _, _ =>
          let f := match fraction with Some f => f | None => 0%Z end in
          let e := match exponent with Some e => e | None => 0%Z end in
          let m := (whole * 10 ^ Z.of_nat fraction_digits + f)%Z in
          Ok (JFloat (decimal_float negative m
                                    (e - Z.of_nat fraction_digits)%Z),
              rest2)
      end
  end.

(** *** Strings *)

Definition unescape (c : ascii) : option ascii :=
  match c with
  | "034"%char => Some "034"%char
  | "\"%char => Some "\"%char
  | "/"%char => Some "/"%char
  | "b"%char => Some "008"%char
  | "f"%char => Some "012"%char
  | "n"%char => Some "010"%char
  | "r"%char => Some "013"%char
  | "t"%char => Some "009"%char
  | _ => None
  end.

Definition hex_value (c : ascii) : option Z :=
  let n := code c in
  (if (48 <=? n) && (n <=? 57) then Some (n - 48)
   else if (65 <=? n) && (n <=? 70) then Some (n - 55)
   else if (97 <=? n) && (n <=? 102) then Some (n - 87)
   else None)%Z.

Definition hex4 (a b c d : ascii) : option Z :=
  match hex_value a, hex_value b, hex_value c, hex_value d with
  | Some x, Some y, Some z, Some w => Some (((x * 16 + y) * 16 + z) * 16 + w)%Z
  | _, _, _, _ => None
  end.

Definition prepend (prefix : string) (scanned : option (string * string))
  : option (string * string) :=
  match scanned with
  | Some (text, after) => Some ((prefix ++ text)%string, after)
  | None => None
  end.

(** The rest of a string literal, after its opening quote: the text and
    what follows the closing quote. *)
Fixpoint scan_string (s : string) : option (string * string) :=
  match s with
  | EmptyString => None
  | String c rest =>
      if Ascii.eqb c "034"%char then Some (EmptyString, rest)
      else if Ascii.eqb c "\"%char then
        match rest with
        | String "u"%char (String h1 (String h2 (String h3 (String h4 rest1)))) =>
            match hex4 h1 h2 h3 h4 with
            | None => None
            | Some u =>
                match rest1 with
                | String "\"%char
                    (String "u"%char
                       (String g1 (String g2 (String g3 (String g4 rest2))))) =>
                    if is_high_surrogate u then
                      match hex4 g1 g2 g3 g4 with
                      | None => None
                      | Some v =>
                          if is_low_surrogate v
                          then prepend (utf8_encode (join_surrogates u v))
                                       (scan_string rest2)
                          else prepend (utf8_encode u) (scan_string rest1)
                      end
                    else prepend (utf8_encode u) (scan_string rest1)
                | _ => prepend (utf8_encode u) (scan_string rest1)
                end
            end
        | String e rest1 =>
            match unescape e with
            | Some ch => prepend (String ch EmptyString) (scan_string rest1)
            | None => None
            end
        | EmptyString => None
        end
      else if (code c <? 32)%Z then None
      else prepend (String c EmptyString) (scan_string rest)
  end.

(** *** Values *)

Definition is_ws (c : ascii) : bool :=
  match c with
  | " "%char | "009"%char | "010"%char | "013"%char => true
  | _ => false
  end.

Fixpoint skip_ws (s : string) : string :=
  match s with
  | String c rest => if is_ws c then skip_ws rest else s
  | EmptyString => s
  end.

(** [d[key] = value] on a [dict]: an existing key keeps its position. *)
Fixpoint dict_set (key : string) (value : json) (d : list (string * json))
  : list (string * json) :=
  match d with
  | [] => [(key, value)]
  | (k, v) :: rest =>
      if String.eqb k key then (k, value) :: rest
      else (k, v) :: dict_set key value rest
  end.

Definition expect (prefix : string) (v : json) (s : string)
  : outcome (json * string) :=
  if String.prefix prefix s
  then Ok (v, drop (String.length prefix) s)
  else Raise JSONDecodeError.

(** The number of nested arrays and objects that a call from the top level
    can enter. *)
Definition nesting_limit : nat := 994.

Fixpoint parse_value (fuel : nat) (depth : nat) (s : string)
  : outcome (json * string) :=
  match fuel with
  | O => Raise JSONDecodeError
  | S fuel =>
      match skip_ws s with
      | String "{"%char rest =>
          if (nesting_limit <=? depth)%nat then Raise RecursionError
          else
            match skip_ws rest with
            | String "}"%char after => Ok (JObj [], after)
            | _ => parse_members fuel (S depth) rest []
            end
      | String "["%char rest =>
          if (nesting_limit <=? depth)%nat then Raise RecursionError
          else
            match skip_ws rest with
            | String "]"%char after => Ok (JArr [], after)
            | _ => parse_elements fuel (S depth) rest []
            end
      | String "034"%char rest =>
          match scan_string rest with
          | Some (text, after) => Ok (JStr text, after)
          | None => Raise JSONDecodeError
          end
      | String "-"%char rest =>
          match expect "Infinity" (JFloat (S754_infinity true)) rest with
          | Ok found => Ok found
          | Raise _ => scan_number true rest
          end
      | String "t"%char _ => expect "true" (JBool true) (skip_ws s)
      | String "f"%char _ => expect "false" (JBool false) (skip_ws s)
      | String "n"%char _ => expect "null" JNull (skip_ws s)
      | String "N"%char _ => expect "NaN" (JFloat S754_nan) (skip_ws s)
      | String "I"%char _ =>
          expect "Infinity" (JFloat (S754_infinity false)) (skip_ws s)
      | other => scan_number false other
      end
  end

with parse_elements (fuel : nat) (depth : nat) (s : string) (acc : list json)
  : outcome (json * string) :=
  match fuel with
  | O => Raise JSONDecodeError
  | S fuel =>
      match parse_value fuel depth s with
      | Ok (v, after) =>
          match skip_ws after with
          | String ","%char more => parse_elements fuel depth more (acc ++ [v])
          | String "]"%char more => Ok (JArr (acc ++ [v]), more)
          | _ => Raise JSONDecodeError
          end
      | Raise e => Raise e
      end
  end

with parse_members (fuel : nat) (depth : nat) (s : string)
                   (acc : list (string * json))
  : outcome (json * string) :=
  match fuel with
  | O => Raise JSONDecodeError
  | S fuel =>
      match skip_ws s with
      | String "034"%char rest =>
          match scan_string rest with
          | Some (key, after) =>
              match skip_ws after with
              | String ":"%char more =>
                  match parse_value fuel depth more with
                  | Ok (v, after') =>
                      match skip_ws after' with
                      | String ","%char more' =>
                          parse_members fuel depth more' (dict_set key v acc)
                      | String "}"%char more' =>
                          Ok (JObj (dict_set key v acc), more')
                      | _ => Raise JSONDecodeError
                      end
                  | Raise e => Raise e
                  end
              | _ => Raise JSONDecodeError
              end
          | None => Raise JSONDecodeError
          end
      | _ => Raise JSONDecodeError
      end
  end.

(** The value of a whole text. *)
Definition loads_text (s : string) : outcome json :=
  match parse_value (2 * String.length s + 2) 0 s with
  | Ok (v, after) =>
      match skip_ws after with
      | EmptyString => Ok v
      | _ => Raise JSONDecodeError
      end
  | Raise e => Raise e
  end.

(** [json.loads(s)] for a [str]: a byte order mark at its start is an
    error. *)
Definition loads (s : string) : outcome json :=
  if String.prefix (utf8_encode 65279) s then Raise JSONDecodeError
  else loads_text s.

(** [json.loads(b)] for [bytes]. *)
Definition loads_bytes (b : string) : outcome json :=
  match decode_bytes b with
  | Some text => loads_text text
  | None => Raise UnicodeDecodeError
  end.

(** *** ISO format of datetimes *)

(** The value of a string made of digits only. *)
Definition all_digits (s : string) : option Z :=
  match s with
  | EmptyString => None
  | _ =>
      match scan_digits s 0 0 with
      | (n, _, EmptyString) => Some n
      | _ => None
      end
  end.

Definition sub (start len : nat) (s : string) : string :=
  substring start len s.

Definition char_is (pos : nat) (c : ascii) (s : string) : bool :=
  match get pos s with
  | Some c' => Ascii.eqb c c'
  | None => false
  end.

(** [HH[:MM[:SS[.fff[fff]]]]] as hours, minutes, seconds, microseconds. *)
Definition parse_hh_mm_ss_ff (t : string) : option (Z * Z * Z * Z) :=
  let field start := all_digits (sub start 2 t) in
  match String.length t with
  | 2%nat =>
      match field 0%nat with
      | Some h => Some (h, 0, 0, 0)%Z
      | None => None
      end
  | 5%nat =>
      match field 0%nat, field 3%nat with
      | Some h, Some m =>
          if char_is 2 ":" t then Some (h, m, 0, 0)%Z else None
      | _, _ => None
      end
  | 8%nat =>
      match field 0%nat, field 3%nat, field 6%nat with
      | Some h, Some m, Some sec =>
          if char_is 2 ":" t && char_is 5 ":" t
          then Some (h, m, sec, 0)%Z else None
      | _, _, _ => None
      end
  | 12%nat =>
      match field 0%nat, field 3%nat, field 6%nat, all_digits (sub 9 3 t) with
      | Some h, Some m, Some sec, Some ms =>
          if char_is 2 ":" t && char_is 5 ":" t && char_is 8 "." t
          then Some (h, m, sec, ms * 1000)%Z else None
      | _, _, _, _ => None
      end
  | 15%nat =>
      match field 0%nat, field 3%nat, field 6%nat, all_digits (sub 9 6 t) with
      | Some h, Some m, Some sec, Some us =>
          if char_is 2 ":" t && char_is 5 ":" t && char_is 8 "." t
          then Some (h, m, sec, us)%Z else None
      | _, _, _, _ => None
      end
  | _ => None
  end.

Definition is_leap (y : Z) : bool :=
  ((y mod 4 =? 0) && (negb (y mod 100 =? 0) || (y mod 400 =? 0)))%Z.

Definition days_in_month (y m : Z) : Z :=
  (if m =? 2 then (if is_leap y then 29 else 28)
   else if (m =? 4) || (m =? 6) || (m =? 9) || (m =? 11) then 30
   else 31)%Z.

(** The position of the sign that starts the offset: the first ["-"],
    else the first ["+"]. *)
Definition tz_sign_pos (t : string) : option (nat * bool) :=
  match index 0 "-" t with
  | Some p => Some (p, true)
  | None =>
      match index 0 "+" t with
      | Some p => Some (p, false)
      | None => None
      end
  end.

(** The time after the separator: the clock, then an optional offset of
    [HH:MM], [HH:MM:SS] or [HH:MM:SS.ffffff]. *)
Definition parse_isoformat_time (t : string)
  : option (Z * Z * Z * Z * option Z) :=
  let clock_ok (c : Z * Z * Z * Z) :=
    let '(h, m, sec, _) := c in ((h <? 24) && (m <? 60) && (sec <? 60))%Z in
  match tz_sign_pos t with
  | None =>
      match parse_hh_mm_ss_ff t with
      | Some c => if clock_ok c then Some (c, None) else None
      | None => None
      end
  | Some (p, negative) =>
      let tz := sub (S p) (String.length t - S p) t in
      match parse_hh_mm_ss_ff (sub 0 p t), parse_hh_mm_ss_ff tz with
      | Some c, Some (h, m, sec, us) =>
          let len := String.length tz in
          if clock_ok c && clock_ok (h, m, sec, us)
             && (Nat.eqb len 5 || Nat.eqb len 8 || Nat.eqb len 15)
          then
            let off := (((h * 3600 + m * 60 + sec) * 1000000) + us)%Z in
            Some (c, Some (if negative then - off else off)%Z)
          else None
      | _, _ => None
      end
  end.

(** [YYYY-MM-DD], optionally followed by one separator character and a
    time. *)
Definition isoparse (s : string) : option datetime :=
  match all_digits (sub 0 4 s), all_digits (sub 5 2 s), all_digits (sub 8 2 s)
  with
  | Some y, Some m, Some d =>
      if char_is 4 "-" s && char_is 7 "-" s
         && (1 <=? y)%Z && (1 <=? m)%Z && (m <=? 12)%Z
         && (1 <=? d)%Z && (d <=? days_in_month y m)%Z
      then
        if Nat.eqb (String.length s) 10
        then Some (Datetime y m d 0 0 0 0 None)
        else
          match parse_isoformat_time (sub 11 (String.length s - 11) s) with
          | Some (h, mi, sec, us, off) => Some (Datetime y m d h mi sec us off)
          | None => None
          end
      else None
  | _, _, _ => None
  end.

(** *** Rendering of values *)

Definition hex_digit (n : nat) : ascii :=
  ascii_of_nat (if (n <? 10)%nat then 48 + n else 87 + n).

(** The escapes of [repr] for one character inside quotes [q]. *)
Definition repr_char (q : ascii) (c : ascii) : string :=
  let n := nat_of_ascii c in
  if Ascii.eqb c "\"%char then "\\"
  else if Ascii.eqb c q then String "\"%char (String c "")
  else if Nat.eqb n 10 then "\n"
  else if Nat.eqb n 13 then "\r"
  else if Nat.eqb n 9 then "\t"
  else if (n <? 32)%nat || Nat.eqb n 127
  then ("\x" ++ String (hex_digit (n / 16))
                       (String (hex_digit (n mod 16)) ""))%string
  else String c "".

Definition contains (c : ascii) (s : string) : bool :=
  existsb (Ascii.eqb c) (list_ascii_of_string s).

(** [repr] of a [str]: single quotes, unless the text has a single quote
    and no double quote. *)
Definition repr_str (s : string) : string :=
  let q := if contains "'" s && negb (contains "034" s)
           then "034"%char else "'"%char in
  (String q (String.concat "" (map (repr_char q) (list_ascii_of_string s)))
   ++ String q "")%string.

Definition repr_float (x : spec_float) : string :=
  match x with
  | S754_nan => "nan"
  | S754_infinity false => "inf"
  | S754_infinity true => "-inf"
  | S754_zero false => "0.0"
  | S754_zero true => "-0.0"
  | S754_finite _ _ _ => "<float>"
  end.

Fixpoint repr (v : json) : string :=
  match v with
  | JNull => "None"
  | JBool true => "True"
  | JBool false => "False"
  | JInt n => NilZero.string_of_int (Z.to_int n)
  | JFloat x => repr_float x
  | JStr s => repr_str s
  | JArr items => ("[" ++ String.concat ", " (map repr items) ++ "]")%string
  | JObj members =>
      ("{" ++ String.concat ", "
                (map (fun kv => repr_str (fst kv) ++ ": " ++ repr (snd kv))
                     members)
           ++ "}")%string
  end.

(** [str(v)]: a [str] is itself, every other object is its [repr]. *)
Definition format (v : json) : string :=
  match v with
  | JStr s => s
  | _ => repr v
  end.

End Ref.

#[export] Instance RefLib : PyLib := {
  json_loads := Ref.loads;
  json_loads_bytes := Ref.loads_bytes;
  fromisoformat := Ref.isoparse;
  py_format := Ref.format;
  py_format_str := fun s => eq_refl
}.

(** ** Vocabulary of the properties *)

Definition is_dict (v : json) : bool :=
  match v with JObj _ => true | _ => false end.

Definition is_list (v : json) : bool :=
  match v with JArr _ => true | _ => false end.

Definition is_str (v : json) : bool :=
  match v with JStr _ => true | _ => false end.

(** The address that an entry of [bouncedRecipients] or
    [complainedRecipients] reports: [recipient_info.get('emailAddress', '')]. *)
Definition email_address (recipient_info : json) : json :=
  match recipient_info with
  | JObj d => dict_get d "emailAddress" (JStr "")
  | _ => JNull
  end.

(** The reported addresses that pass the test [if recipient]. *)
Definition addresses (infos : list json) : list json :=
  filter truthy (map email_address infos).

(** The recipient list that the Delivery branch iterates:
    [delivery_data.get('recipients', destinations)]. *)
Definition effective_recipients (delivery mail : list (string * json)) : json :=
  match dict_lookup "recipients" delivery with
  | Some reported => reported
  | None => dict_get mail "destination" (JArr [])
  end.

(** The status that the Bounce branch derives from the sub-type. *)
Definition bounce_status (bounce_type : json) : RecipientDeliveryStatus :=
  if py_eq_str bounce_type "Transient" then SOFT_BOUNCED else HARD_BOUNCED.

(** The event that a branch builds for the recipient [r]. *)
Definition event_of (raw : string) (status : RecipientDeliveryStatus)
           (mail headers : list (string * json)) (ts : option datetime)
           (r : json) : ESPEvent :=
  mkESPEvent raw status r (dict_get mail "messageId" JNull) ts
             (dict_get headers "subject" JNull)
             (dict_get mail "destination" (JArr [])).

(** What the loop over reported entries comes to: an entry that is not a
    [dict] has no [get]. *)
Definition entries_outcome (mk : json -> ESPEvent) (infos : list json)
  : M (list ESPEvent) :=
  if forallb is_dict infos then ret (map mk (addresses infos))
  else raise AttributeError.

(** The events of a result agree on everything but the recipient. *)
Definition uniform (m : M (list ESPEvent)) : Prop :=
  match result m with
  | Ok events =>
      exists raw status mid ts subj dests rs,
        events = map (fun r => mkESPEvent raw status r mid ts subj dests) rs
  | Raise _ => True
  end.

Definition agree_but_recipient (e1 e2 : ESPEvent) : Prop :=
  message_id e1 = message_id e2 /\
  timestamp e1 = timestamp e2 /\
  subject e1 = subject e2 /\
  to_addresses e1 = to_addresses e2 /\
  raw_event e1 = raw_event e2 /\
  delivery_status e1 = delivery_status e2.

Definition is_dict_with (check : list (string * json) -> bool) (v : json)
  : bool :=
  match v with JObj d => check d | _ => false end.

Definition is_list_of (check : json -> bool) (v : json) : bool :=
  match v with JArr items => forallb check items | _ => false end.

(** The inner message is an object in which every field that the handler
    reads for the type of the notification is usable: [mail], its
    [commonHeaders] and the object of the branch are objects, the
    [timestamp] is a string or falsy, the recipient list of a delivery is a
    list and the entries of a bounce or a complaint are a list of objects.
    A missing key counts as its default, as in the source. *)
Definition well_typed_message (message : json) : bool :=
  is_dict_with
    (fun m =>
       is_dict_with
         (fun mail =>
            let ts := dict_get mail "timestamp" JNull in
            let kind := dict_get m "notificationType" (JStr "") in
            is_dict (dict_get mail "commonHeaders" (JObj []))
            && (is_str ts || negb (truthy ts))
            && (if py_eq_str kind "Delivery" then
                  is_dict_with
                    (fun delivery =>
                       is_list (effective_recipients delivery mail))
                    (dict_get m "delivery" (JObj []))
                else if py_eq_str kind "Bounce" then
                  is_dict_with
                    (fun bounce =>
                       is_list_of is_dict
                         (dict_get bounce "bouncedRecipients" (JArr [])))
                    (dict_get m "bounce" (JObj []))
                else if py_eq_str kind "Complaint" then
                  is_dict_with
                    (fun complaint =>
                       is_list_of is_dict
                         (dict_get complaint "complainedRecipients" (JArr [])))
                    (dict_get m "complaint" (JObj []))
                else true))
         (dict_get m "mail" (JObj [])))
    message.

(** The two kinds of notification that report a list of entries: the
    [notificationType], the key of the object that describes the event and
    the key of its list. *)
Definition entry_kinds : list (string * string * string) :=
  [("Bounce", "bounce", "bouncedRecipients");
   ("Complaint", "complaint", "complainedRecipients")].

(** The message [m] is of the kind [kind]; its object [section] is [data]
    and reports the list [infos] under [key].  A missing [section] is the
    empty object and a missing [key] the empty list, as in the source. *)
Definition reports_entries (m : list (string * json))
           (kind section key : string) (data : list (string * json))
           (infos : list json) : Prop :=
  dict_get m "notificationType" (JStr "") = JStr kind /\
  dict_get m section (JObj []) = JObj data /\
  dict_get data key (JArr []) = JArr infos.

Section Vocabulary.

Context {L : PyLib}.

(** [request] hands the [dict] [p] to [parse_events] as its payload. *)
Definition carries_payload (request : request_or_payload)
           (p : list (string * json)) : Prop :=
  match request with
  | OfRequest http => json_loads_bytes (body http) = Ok (JObj p)
  | OfPayload payload => payload = JObj p
  end.

(** [request] is an SNS envelope whose [Message] is the JSON text of the
    object [m]. *)
Definition carries_message (request : request_or_payload)
           (m : list (string * json)) : Prop :=
  exists p text,
    carries_payload request p /\
    dict_lookup "Message" p = Some (JStr text) /\
    text <> "" /\
    json_loads text = Ok (JObj m).

(** A notification [m] whose common fields are read without an exception:
    [mail] and [commonHeaders] are objects (or missing, with [mail] and
    [headers] empty) and the timestamp block ends with [ts]. *)
Record Notification (request : request_or_payload)
       (m mail headers : list (string * json)) (ts : option datetime)
  : Prop := {
  carried : carries_message request m;
  mail_object : dict_get m "mail" (JObj []) = JObj mail;
  headers_object : dict_get mail "commonHeaders" (JObj []) = JObj headers;
  timestamp_parsed : parse_timestamp (JObj mail) = ret ts
}.

(** The event that the Bounce branch ([kind] is ["Bounce"]) or the
    Complaint branch builds for the recipient [r]; [data] is the [bounce]
    object. *)
Definition entry_event (kind : string) (data mail headers : list (string * json))
           (ts : option datetime) : json -> ESPEvent :=
  if String.eqb kind "Bounce" then
    let bounce_type := dict_get data "bounceType" (JStr "Permanent") in
    event_of ("Bounce:" ++ py_format bounce_type) (bounce_status bounce_type)
             mail headers ts
  else event_of "Complaint" SPAM_COMPLAINT mail headers ts.

(** The payload either has no usable [Message], or [json.loads] raises
    [JSONDecodeError] on its text, or the text decodes to a well-typed
    message. *)
Definition well_typed_payload (p : list (string * json)) : bool :=
  match dict_get p "Message" (JStr "") with
  | JStr text =>
      if String.eqb text "" then true
      else
        match json_loads text with
        | Ok message => well_typed_message message
        | Raise JSONDecodeError => true
        | Raise _ => false
        end
  | other => negb (truthy other)
  end.

End Vocabulary.

(** ** Sample notifications *)

(** JSON text written with single quotes in the place of double quotes. *)
Definition json_text (s : string) : string :=
  str_replace "'" (String "034" "") s.

(** The SNS envelope around the inner text [message], as a request. *)
Definition sns_request (message : string) : request_or_payload :=
  OfRequest
    (mkHttpRequest
       (json_text
          ("{'Type': 'Notification', 'MessageId': 'test-message-id', "
             ++ "'Message': '" ++ message ++ "'}"))).

(** The delivery of [test_parse_delivery_multiple_recipients]. *)
Definition delivery_request : request_or_payload :=
  sns_request
    ("{\'notificationType\': \'Delivery\', "
       ++ "\'mail\': {\'messageId\': \'abc123\', "
       ++ "\'destination\': [\'user1@example.com\', \'user2@example.com\', "
       ++ "\'user3@example.com\'], "
       ++ "\'timestamp\': \'2024-01-02T03:04:05Z\'}, "
       ++ "\'delivery\': {\'recipients\': "
       ++ "[\'user1@example.com\', \'user2@example.com\']}}").

Definition delivery_mail : list (string * json) :=
  [("messageId", JStr "abc123");
   ("destination",
    JArr [JStr "user1@example.com"; JStr "user2@example.com";
          JStr "user3@example.com"]);
   ("timestamp", JStr "2024-01-02T03:04:05Z")].

Definition delivery_data : list (string * json) :=
  [("recipients", JArr [JStr "user1@example.com"; JStr "user2@example.com"])].

Definition delivery_message : list (string * json) :=
  [("notificationType", JStr "Delivery");
   ("mail", JObj delivery_mail);
   ("delivery", JObj delivery_data)].

Definition utc_2024_01_02_03_04_05 : datetime :=
  Datetime 2024 1 2 3 4 5 0 (Some 0%Z).

(** A delivery that reports an empty address. *)
Definition blank_delivery_request : request_or_payload :=
  sns_request
    ("{\'notificationType\': \'Delivery\', "
       ++ "\'mail\': {\'messageId\': \'abc123\', "
       ++ "\'destination\': [\'user1@example.com\']}, "
       ++ "\'delivery\': {\'recipients\': [\'user1@example.com\', \'\']}}").

Definition blank_delivery_mail : list (string * json) :=
  [("messageId", JStr "abc123");
   ("destination", JArr [JStr "user1@example.com"])].

Definition blank_delivery_data : list (string * json) :=
  [("recipients", JArr [JStr "user1@example.com"; JStr ""])].

Definition blank_delivery_message : list (string * json) :=
  [("notificationType", JStr "Delivery");
   ("mail", JObj blank_delivery_mail);
   ("delivery", JObj blank_delivery_data)].

(** A transient bounce with the entries [entries] (JSON text). *)
Definition bounce_request (entries : string) : request_or_payload :=
  sns_request
    ("{\'notificationType\': \'Bounce\', "
       ++ "\'mail\': {\'messageId\': \'abc123\', "
       ++ "\'destination\': [\'user@example.com\', \'other@example.com\'], "
       ++ "\'commonHeaders\': {\'subject\': \'Hello\'}}, "
       ++ "\'bounce\': {\'bounceType\': \'Transient\', "
       ++ "\'bouncedRecipients\': [" ++ entries ++ "]}}").

Definition bounce_mail : list (string * json) :=
  [("messageId", JStr "abc123");
   ("destination", JArr [JStr "user@example.com"; JStr "other@example.com"]);
   ("commonHeaders", JObj [("subject", JStr "Hello")])].

Definition bounce_data (infos : list json) : list (string * json) :=
  [("bounceType", JStr "Transient"); ("bouncedRecipients", JArr infos)].

Definition bounce_message (infos : list json) : list (string * json) :=
  [("notificationType", JStr "Bounce");
   ("mail", JObj bounce_mail);
   ("bounce", JObj (bounce_data infos))].

Definition entry_user : json := JObj [("emailAddress", JStr "user@example.com")].
Definition entry_other : json :=
  JObj [("emailAddress", JStr "other@example.com")].
Definition entry_blank : list (string * json) := [("emailAddress", JStr "")].
Definition entry_without_address : json := JObj [("status", JStr "5.1.1")].

(** Four entries, of which the second has an empty address and the third
    has none. *)
Definition bounce_request_4 : request_or_payload :=
  bounce_request
    ("{\'emailAddress\': \'user@example.com\'}, {\'emailAddress\': \'\'}, "
       ++ "{\'status\': \'5.1.1\'}, {\'emailAddress\': \'other@example.com\'}").

(** The same bounce without its second entry. *)
Definition bounce_request_3 : request_or_payload :=
  bounce_request
    ("{\'emailAddress\': \'user@example.com\'}, "
       ++ "{\'status\': \'5.1.1\'}, {\'emailAddress\': \'other@example.com\'}").

(** The complaint of [test_parse_complaint], with one more entry that has
    an empty address. *)
Definition complaint_request : request_or_payload :=
  sns_request
    ("{\'notificationType\': \'Complaint\', "
       ++ "\'mail\': {\'messageId\': \'abc123\', "
       ++ "\'destination\': [\'user@example.com\']}, "
       ++ "\'complaint\': {\'complainedRecipients\': "
       ++ "[{\'emailAddress\': \'user@example.com\'}, {\'emailAddress\': \'\'}]}}").

Definition complaint_mail : list (string * json) :=
  [("messageId", JStr "abc123");
   ("destination", JArr [JStr "user@example.com"])].

Definition complaint_data : list (string * json) :=
  [("complainedRecipients", JArr [entry_user; JObj entry_blank])].

Definition complaint_message : list (string * json) :=
  [("notificationType", JStr "Complaint");
   ("mail", JObj complaint_mail);
   ("complaint", JObj complaint_data)].

(** The payload of [test_parse_empty_message]. *)
Definition empty_message_request : request_or_payload :=
  OfRequest
    (mkHttpRequest (json_text "{'Type': 'Notification', 'Message': ''}")).

Definition empty_message_payload : list (string * json) :=
  [("Type", JStr "Notification"); ("Message", JStr "")].

(** An envelope whose [Message] is not JSON text. *)
Definition garbled_message_payload : list (string * json) :=
  [("Type", JStr "Notification"); ("Message", JStr "{not json")].

(** The character [c], [n] times. *)
Fixpoint repeat_char (n : nat) (c : ascii) : string :=
  match n with
  | O => EmptyString
  | S n => String c (repeat_char n c)
  end.

(** An envelope whose [Message] is 2048 opening brackets. *)
Definition deep_message_payload : list (string * json) :=
  [("Type", JStr "Notification"); ("Message", JStr (repeat_char 2048 "["))].

(** An envelope whose [Message] is the JSON text of a list. *)
Definition list_message_request : request_or_payload :=
  OfPayload (JObj [("Type", JStr "Notification"); ("Message", JStr "[1]")]).

(** A bounce that has neither [mail] nor [bounceType]. *)
Definition partial_bounce_payload : list (string * json) :=
  [("Type", JStr "Notification");
   ("Message",
    JStr (json_text
            ("{'notificationType': 'Bounce', 'bounce': "
               ++ "{'bouncedRecipients': [{'emailAddress': 'x@y.com'}]}}")))].

(** A delivery whose [timestamp] is a number of seconds. *)
Definition numeric_timestamp_request : request_or_payload :=
  sns_request
    ("{\'notificationType\': \'Delivery\', "
       ++ "\'mail\': {\'messageId\': \'abc123\', "
       ++ "\'destination\': [\'user@example.com\'], "
       ++ "\'timestamp\': 1704164645}}").

(** The request of [test_parse_subscription_confirmation]. *)
Definition subscription_request : HttpRequest :=
  mkHttpRequest
    (json_text
       ("{'Type': 'SubscriptionConfirmation', "
          ++ "'TopicArn': 'arn:aws:sns:us-east-1:123456789:ses-notifications', "
          ++ "'SubscribeURL': "
          ++ "'https://sns.us-east-1.amazonaws.com/?Action=ConfirmSubscription'}")).

Definition subscription_payload : list (string * json) :=
  [("Type", JStr "SubscriptionConfirmation");
   ("TopicArn", JStr "arn:aws:sns:us-east-1:123456789:ses-notifications");
   ("SubscribeURL",
    JStr "https://sns.us-east-1.amazonaws.com/?Action=ConfirmSubscription")].

(** The response of [_handle_subscription_confirmation] to the payload
    [p]. *)
Definition subscription_response (p : list (string * json)) : HttpResponse :=
  JsonResponse
    (JObj [("status", JStr "subscription_confirmation_received");
           ("topic_arn", dict_get p "TopicArn" JNull);
           ("subscribe_url", dict_get p "SubscribeURL" JNull)])
    200.

(** A classifier and a collaborator that fail whenever they are run. *)
Definition failing_classifier (request : request_or_payload)
  : M (list ESPEvent) :=
  log ERROR "classifier invoked" [] ;; raise (OtherError "classifier").

Definition failing_collaborator (events : list ESPEvent) (payload : json)
  : M unit :=
  log ERROR "collaborator invoked" [] ;; raise (OtherError "collaborator").

(** The bounce of [test_parse_bounce_permanent]. *)
Definition permanent_bounce_request : request_or_payload :=
  sns_request
    ("{\'notificationType\': \'Bounce\', "
       ++ "\'mail\': {\'messageId\': \'abc123\', "
       ++ "\'destination\': [\'invalid@example.com\']}, "
       ++ "\'bounce\': {\'bounceType\': \'Permanent\', "
       ++ "\'bouncedRecipients\': [{\'emailAddress\': \'invalid@example.com\'}]}}").

(** The notification of [test_parse_unknown_notification_type]. *)
Definition unknown_type_request : request_or_payload :=
  sns_request
    ("{\'notificationType\': \'UnknownType\', "
       ++ "\'mail\': {\'messageId\': \'abc123\', "
       ++ "\'destination\': [\'user@example.com\']}}").

(** A collaborator that accepts the events. *)
Definition accepting_collaborator (events : list ESPEvent) (payload : json)
  : M unit :=
  ret tt.

(** ** Vocabulary and samples of the further properties *)

(** Objects over which [for] can run. *)
Definition is_iterable (v : json) : bool :=
  is_list v || is_str v || is_dict v.

(** The one-character strings of [s], in order. *)
Definition characters (s : string) : list json :=
  map (fun c => JStr (String c "")) (list_ascii_of_string s).

(** Text whose characters are single bytes. *)
Definition is_ascii_text (s : string) : bool :=
  forallb (fun c => (nat_of_ascii c <? 128)%nat) (list_ascii_of_string s).

(** What [parse_events] may leave in the log, and with which result. *)
Definition logs_at_most_once (m : M (list ESPEvent)) : Prop :=
  records m = []
  \/ m = (Raise JSONDecodeError,
          [LogRecord ERROR "Failed to parse SES webhook JSON" []])
  \/ m = (Ok [], [LogRecord WARNING "No Message in SNS payload" []])
  \/ m = (Ok [],
          [LogRecord ERROR "Failed to parse inner SNS Message JSON" []])
  \/ exists kind,
      m = (Ok [],
           [LogRecord DEBUG "Ignoring unmapped SES notification type: {}"
                      [ArgValue kind]]).

Section FurtherVocabulary.

Context {L : PyLib}.

(** The message [m] of [request] with its [mail] and [commonHeaders]
    objects (empty when missing); nothing is said of the timestamp. *)
Definition carries_mail (request : request_or_payload)
           (m mail headers : list (string * json)) : Prop :=
  carries_message request m /\
  dict_get m "mail" (JObj []) = JObj mail /\
  dict_get mail "commonHeaders" (JObj []) = JObj headers.

End FurtherVocabulary.

(** The request inside [r]. *)
Definition http_of (r : request_or_payload) : HttpRequest :=
  match r with
  | OfRequest http => http
  | OfPayload _ => mkHttpRequest ""
  end.

(** The payload that the body of [delivery_request] decodes to. *)
Definition delivery_payload : list (string * json) :=
  Eval vm_compute in
    match Ref.loads_bytes (body (http_of delivery_request)) with
    | Ok (JObj p) => p
    | _ => []
    end.

(** The payload that the body of [numeric_timestamp_request] decodes to. *)
Definition numeric_timestamp_payload : list (string * json) :=
  Eval vm_compute in
    match Ref.loads_bytes (body (http_of numeric_timestamp_request)) with
    | Ok (JObj p) => p
    | _ => []
    end.

Definition numeric_timestamp_mail : list (string * json) :=
  [("messageId", JStr "abc123");
   ("destination", JArr [JStr "user@example.com"]);
   ("timestamp", JInt 1704164645)].

Definition numeric_timestamp_message : list (string * json) :=
  [("notificationType", JStr "Delivery");
   ("mail", JObj numeric_timestamp_mail)].

Definition garbled_body_request : HttpRequest := mkHttpRequest "{not json".

Definition unsubscribe_request : HttpRequest :=
  mkHttpRequest
    (json_text
       ("{'Type': 'UnsubscribeConfirmation', "
          ++ "'TopicArn': 'arn:aws:sns:us-east-1:123456789:ses-notifications'}")).

Definition unsubscribe_payload : list (string * json) :=
  [("Type", JStr "UnsubscribeConfirmation");
   ("TopicArn", JStr "arn:aws:sns:us-east-1:123456789:ses-notifications")].

(** An envelope without [Type]. *)
Definition untyped_request : HttpRequest :=
  mkHttpRequest (json_text "{'MessageId': 'test-message-id'}").

Definition untyped_payload : list (string * json) :=
  [("MessageId", JStr "test-message-id")].

(** A body that is no text in any encoding: the byte 255. *)
Definition invalid_utf8_request : HttpRequest :=
  mkHttpRequest (String "255"%char EmptyString).

(** A body that is the JSON text of a list. *)
Definition list_body_request : HttpRequest :=
  mkHttpRequest (json_text "[{'Type': 'Notification'}]").

(** A [verify_signature] that rejects the request. *)
Definition rejecting_verifier (request : HttpRequest) : M bool :=
  ret false.

Definition unknown_type_mail : list (string * json) :=
  [("messageId", JStr "abc123");
   ("destination", JArr [JStr "user@example.com"])].

Definition unknown_type_message : list (string * json) :=
  [("notificationType", JStr "UnknownType");
   ("mail", JObj unknown_type_mail)].

(** An envelope whose [Message] is an object, not text. *)
Definition object_message_payload : list (string * json) :=
  [("Type", JStr "Notification");
   ("Message", JObj [("notificationType", JStr "Delivery")])].

Definition list_message_payload : list (string * json) :=
  [("Type", JStr "Notification"); ("Message", JStr "[1]")].

(** A bounce whose second entry is a bare address. *)
Definition bare_entry_request : request_or_payload :=
  bounce_request
    "{\'emailAddress\': \'user@example.com\'}, \'other@example.com\'".

(** A delivery with the recipients [recipients] (JSON text) and the
    timestamp [stamp] (JSON text). *)
Definition delivery_request_with (recipients stamp : string)
  : request_or_payload :=
  sns_request
    ("{\'notificationType\': \'Delivery\', "
       ++ "\'mail\': {\'destination\': [\'user@example.com\'], "
       ++ "\'timestamp\': " ++ stamp ++ "}, "
       ++ "\'delivery\': {\'recipients\': " ++ recipients ++ "}}").

Definition delivery_message_with (recipients stamp : json)
  : list (string * json) :=
  [("notificationType", JStr "Delivery");
   ("mail",
    JObj [("destination", JArr [JStr "user@example.com"]);
          ("timestamp", stamp)]);
   ("delivery", JObj [("recipients", recipients)])].

Definition delivery_mail_with (stamp : json) : list (string * json) :=
  [("destination", JArr [JStr "user@example.com"]); ("timestamp", stamp)].

Definition null_recipients_request : request_or_payload :=
  delivery_request_with "null" "\'2024-01-02T03:04:05Z\'".

Definition string_recipients_request : request_or_payload :=
  delivery_request_with "\'a@b.c\'" "\'2024-01-02T03:04:05Z\'".

Definition unparsable_timestamp_request : request_or_payload :=
  delivery_request_with "[\'user@example.com\']" "\'yesterday\'".

Definition offset_mail : list (string * json) :=
  [("timestamp", JStr "2024-01-02T03:04:05+00:00")].

(** A bounce whose sub-type is [null]. *)
Definition null_subtype_request : request_or_payload :=
  sns_request
    ("{\'notificationType\': \'Bounce\', "
       ++ "\'bounce\': {\'bounceType\': null, "
       ++ "\'bouncedRecipients\': [{\'emailAddress\': \'user@example.com\'}]}}").

Definition null_subtype_data : list (string * json) :=
  [("bounceType", JNull); ("bouncedRecipients", JArr [entry_user])].

Definition null_subtype_message : list (string * json) :=
  [("notificationType", JStr "Bounce"); ("bounce", JObj null_subtype_data)].

(** A complaint that says nothing else. *)
Definition bare_complaint_request : request_or_payload :=
  sns_request "{\'notificationType\': \'Complaint\'}".

Definition bare_complaint_message : list (string * json) :=
  [("notificationType", JStr "Complaint")].

(** ** Laws of the monad *)

Section MonadLaws.

Context {A B : Type}.

Lemma bind_ret_l (a : A) (f : A -> M B) : bind (ret a) f = f a.
Proof. unfold bind, ret. destruct (f a). reflexivity. Qed.

Lemma bind_raise_l (e : exn) (f : A -> M B) : bind (raise e) f = raise e.
Proof. reflexivity. Qed.

Lemma lift_ok (a : A) : lift (Ok a) = ret a.
Proof. reflexivity. Qed.

Lemma lift_raise (e : exn) : lift (A := A) (Raise e) = raise e.
Proof. reflexivity. Qed.

Lemma try_except_ret (a : A) classes (handler : exn -> M A) :
  try_except (ret a) classes handler = ret a.
Proof. reflexivity. Qed.

Lemma try_except_raise (e : exn) classes (handler : exn -> M A) :
  try_except (raise e) classes handler
  = if classes e then handler e else raise e.
Proof.
  unfold try_except, raise. destruct (classes e); [|reflexivity].
  destruct (handler e). reflexivity.
Qed.

Lemma bind_log lvl text a (f : unit -> M B) :
  bind (log lvl text a) f
  = (result (f tt), LogRecord lvl text a :: records (f tt)).
Proof. unfold bind, log, result, records. destruct (f tt). reflexivity. Qed.

End MonadLaws.

(** ** The two loops of [parse_events] *)

Lemma for_each_append (mk : json -> ESPEvent) items events :
  for_each items (fun r evs => ret (evs ++ [mk r])) events
  = ret (events ++ map mk items).
Proof.
  revert events. induction items as [|r items IH]; intros events;
    cbn [for_each map].
  - now rewrite app_nil_r.
  - rewrite bind_ret_l, IH, <- app_assoc. reflexivity.
Qed.

Lemma for_each_entries (mk : json -> ESPEvent) infos events :
  for_each infos
    (fun info evs =>
       r <- py_get info "emailAddress" (JStr "") ;;
       if truthy r then ret (evs ++ [mk r]) else ret evs)
    events
  = if forallb is_dict infos
    then ret (events ++ map mk (addresses infos))
    else raise AttributeError.
Proof.
  revert events. induction infos as [|info infos IH]; intros events.
  - cbn. now rewrite app_nil_r.
  - cbn [for_each forallb].
    destruct info; cbn [py_get is_dict andb]; try (now rewrite bind_raise_l).
    rewrite bind_ret_l. unfold addresses. cbn [map email_address filter].
    fold (addresses infos).
    destruct (truthy (dict_get members "emailAddress" (JStr ""))).
    + rewrite bind_ret_l, IH. destruct (forallb is_dict infos); [|reflexivity].
      cbn [map]. now rewrite <- app_assoc.
    + rewrite bind_ret_l. apply IH.
Qed.

Lemma addresses_app (pre post : list json) :
  addresses (pre ++ post) = addresses pre ++ addresses post.
Proof. unfold addresses. now rewrite map_app, filter_app. Qed.

Lemma addresses_truthy (infos : list json) (r : json) :
  In r (addresses infos) -> truthy r = true.
Proof. unfold addresses. intros H. now apply filter_In in H. Qed.

Lemma string_eqb_neq (s t : string) : s <> t -> String.eqb s t = false.
Proof. intros H. now apply String.eqb_neq. Qed.

Lemma py_eq_str_true (v : json) (s : string) :
  py_eq_str v s = true -> v = JStr s.
Proof.
  destruct v; cbn; try discriminate. intros H.
  apply String.eqb_eq in H. now subst.
Qed.

(** ** The branches of [parse_events] *)

Ltac run :=
  repeat first
    [ rewrite bind_ret_l
    | rewrite try_except_ret
    | rewrite lift_ok
    | progress cbn [py_get py_iter py_json_loads] ].

Ltac enter_notification H :=
  let p := fresh "p" in
  let text := fresh "text" in
  let Hp := fresh "Hp" in
  let Hmsg := fresh "Hmsg" in
  let Hne := fresh "Hne" in
  let Hdec := fresh "Hdec" in
  let Hmail := fresh "Hmail" in
  let Hhdr := fresh "Hhdr" in
  let Hts := fresh "Hts" in
  destruct H as [(p & text & Hp & Hmsg & Hne & Hdec) Hmail Hhdr Hts];
  unfold parse_events;
  match goal with
  | |- context [match ?request with OfRequest _ => _ | OfPayload _ => _ end] =>
      destruct request; cbn [carries_payload] in Hp;
      [unfold json_loads_body; rewrite Hp | rewrite Hp]
  end;
  run;
  replace (dict_get p "Message" (JStr "")) with (JStr text)
    by (unfold dict_get; now rewrite Hmsg);
  cbn [truthy]; rewrite (string_eqb_neq _ _ Hne); cbn [negb];
  run; rewrite Hdec; run; rewrite Hmail; run; rewrite Hhdr; run;
  rewrite Hts; run.

Ltac enter_kind Hty :=
  rewrite Hty; cbn [py_eq_str String.eqb Ascii.eqb Bool.eqb]; run.

Section Branches.

Context {L : PyLib}.

Lemma parse_events_delivery request m mail headers ts delivery rs :
  Notification request m mail headers ts ->
  dict_get m "notificationType" (JStr "") = JStr "Delivery" ->
  dict_get m "delivery" (JObj []) = JObj delivery ->
  effective_recipients delivery mail = JArr rs ->
  parse_events request
  = ret (map (event_of "Delivery" DELIVERED mail headers ts) rs).
Proof.
  intros H Hty Hd Hr. enter_notification H.
  all: enter_kind Hty; rewrite Hd; run.
  all: change (dict_get delivery "recipients"
                        (dict_get mail "destination" (JArr [])))
         with (effective_recipients delivery mail).
  all: rewrite Hr; unfold py_for; run.
  all: apply (for_each_append (event_of "Delivery" DELIVERED mail headers ts)).
Qed.

Lemma parse_events_bounce request m mail headers ts bounce infos :
  Notification request m mail headers ts ->
  dict_get m "notificationType" (JStr "") = JStr "Bounce" ->
  dict_get m "bounce" (JObj []) = JObj bounce ->
  dict_get bounce "bouncedRecipients" (JArr []) = JArr infos ->
  let bounce_type := dict_get bounce "bounceType" (JStr "Permanent") in
  parse_events request
  = entries_outcome
      (event_of ("Bounce:" ++ py_format bounce_type)
                (bounce_status bounce_type) mail headers ts)
      infos.
Proof.
  intros H Hty Hb Hi bounce_type. enter_notification H.
  all: enter_kind Hty; rewrite Hb; run; rewrite Hi; unfold py_for; run.
  all: exact (for_each_entries
                (event_of ("Bounce:" ++ py_format bounce_type)
                          (bounce_status bounce_type) mail headers ts)
                infos []).
Qed.

Lemma parse_events_complaint request m mail headers ts complaint infos :
  Notification request m mail headers ts ->
  dict_get m "notificationType" (JStr "") = JStr "Complaint" ->
  dict_get m "complaint" (JObj []) = JObj complaint ->
  dict_get complaint "complainedRecipients" (JArr []) = JArr infos ->
  parse_events request
  = entries_outcome
      (event_of "Complaint" SPAM_COMPLAINT mail headers ts) infos.
Proof.
  intros H Hty Hc Hi. enter_notification H.
  all: enter_kind Hty; rewrite Hc; run; rewrite Hi; unfold py_for; run.
  all: exact (for_each_entries
                (event_of "Complaint" SPAM_COMPLAINT mail headers ts)
                infos []).
Qed.

Lemma parse_events_unmapped request m mail headers ts :
  Notification request m mail headers ts ->
  let kind := dict_get m "notificationType" (JStr "") in
  py_eq_str kind "Delivery" = false ->
  py_eq_str kind "Bounce" = false ->
  py_eq_str kind "Complaint" = false ->
  parse_events request
  = (Ok [],
     [LogRecord DEBUG "Ignoring unmapped SES notification type: {}"
                [ArgValue kind]]).
Proof.
  intros H kind Hd Hb Hc. enter_notification H.
  all: fold kind; rewrite Hd, Hb, Hc; reflexivity.
Qed.

End Branches.

(** ** Delivery notifications *)

Ltac by_evaluation := vm_compute; first [reflexivity | discriminate].

Ltac sample_message :=
  eexists; eexists;
  split; [by_evaluation|]; split; [by_evaluation|]; split; by_evaluation.

Ltac sample_notification := split; [sample_message | by_evaluation ..].

Ltac sample_mail := split; [sample_message | split; by_evaluation].

Lemma delivery_request_notification :
  Notification (L := RefLib) delivery_request delivery_message delivery_mail
               [] (Some utc_2024_01_02_03_04_05).
Proof. sample_notification. Defined.

(** C1.  A Delivery notification whose effective recipient list (the
    [recipients] of [delivery] when that key is present, the [destination]
    of [mail] otherwise) is the list [rs] yields exactly one event per
    element of [rs], in the order of [rs], duplicates included, and every
    event carries the whole [destination] list as [to_addresses]. *)
Theorem delivery_one_event_per_recipient
        {L : PyLib} request m mail headers ts delivery rs :
  Notification request m mail headers ts ->
  dict_get m "notificationType" (JStr "") = JStr "Delivery" ->
  dict_get m "delivery" (JObj []) = JObj delivery ->
  effective_recipients delivery mail = JArr rs ->
  exists events,
    parse_events request = ret events /\
    length events = length rs /\
    map recipient events = rs /\
    Forall (fun e => to_addresses e = dict_get mail "destination" (JArr []))
           events.
Proof.
  intros H Hty Hd Hr.
  exists (map (event_of "Delivery" DELIVERED mail headers ts) rs).
  split; [now apply parse_events_delivery with (m := m) (delivery := delivery)|].
  split; [apply length_map|].
  split.
  - rewrite map_map. cbn [event_of recipient]. apply map_id.
  - apply Forall_forall. intros e He.
    apply in_map_iff in He. destruct He as (r & <- & _). reflexivity.
Qed.

Lemma delivery_one_event_per_recipient_witness :
  exists events,
    parse_events (L := RefLib) delivery_request = ret events /\
    length events = 2%nat /\
    map recipient events
    = [JStr "user1@example.com"; JStr "user2@example.com"] /\
    Forall (fun e => to_addresses e
                     = JArr [JStr "user1@example.com";
                             JStr "user2@example.com";
                             JStr "user3@example.com"])
           events.
Proof.
  apply (delivery_one_event_per_recipient
           (L := RefLib) delivery_request delivery_message delivery_mail []
           (Some utc_2024_01_02_03_04_05) delivery_data
           [JStr "user1@example.com"; JStr "user2@example.com"]).
  - exact delivery_request_notification.
  - reflexivity.
  - reflexivity.
  - reflexivity.
Defined.

Lemma blank_delivery_request_notification :
  Notification (L := RefLib) blank_delivery_request blank_delivery_message
               blank_delivery_mail [] None.
Proof. sample_notification. Defined.

(** ** Bounce and Complaint notifications *)

Section Entries.

Context {L : PyLib}.

Lemma parse_events_entries request m mail headers ts kind section key
      data infos :
  In (kind, section, key) entry_kinds ->
  Notification request m mail headers ts ->
  reports_entries m kind section key data infos ->
  parse_events request
  = entries_outcome (entry_event kind data mail headers ts) infos.
Proof.
  intros Hk H (Hty & Hdata & Hinfos).
  destruct Hk as [Hk | [Hk | []]]; inversion Hk; subst kind section key.
  - now apply parse_events_bounce with (m := m).
  - now apply parse_events_complaint with (m := m) (complaint := data).
Qed.

Lemma entries_outcome_events mk infos events :
  result (entries_outcome mk infos) = Ok events ->
  forallb is_dict infos = true /\ events = map mk (addresses infos).
Proof.
  unfold entries_outcome. destruct (forallb is_dict infos); cbn.
  - intros H. inversion H. now split.
  - discriminate.
Qed.

Lemma entries_outcome_skip mk pre entry post :
  truthy (dict_get entry "emailAddress" (JStr "")) = false ->
  entries_outcome mk (pre ++ JObj entry :: post)
  = entries_outcome mk (pre ++ post).
Proof.
  intros Hfalsy. unfold entries_outcome.
  rewrite !forallb_app. cbn [forallb is_dict andb].
  rewrite !addresses_app.
  change (JObj entry :: post) with ([JObj entry] ++ post).
  rewrite addresses_app. unfold addresses at 2.
  cbn [map email_address filter]. rewrite Hfalsy. reflexivity.
Qed.

End Entries.

Lemma bounce_request_4_notification :
  Notification (L := RefLib) bounce_request_4
    (bounce_message
       [entry_user; JObj entry_blank; entry_without_address; entry_other])
    bounce_mail [("subject", JStr "Hello")] None.
Proof. sample_notification. Defined.

Lemma bounce_request_3_notification :
  Notification (L := RefLib) bounce_request_3
    (bounce_message [entry_user; entry_without_address; entry_other])
    bounce_mail [("subject", JStr "Hello")] None.
Proof. sample_notification. Defined.

Lemma complaint_request_notification :
  Notification (L := RefLib) complaint_request complaint_message
               complaint_mail [] None.
Proof. sample_notification. Defined.

(** C10.  The Delivery branch filters nothing: the recipients of the
    emitted events are the elements of the effective recipient list, one by
    one, so an element that is the empty string yields an event whose
    recipient is the empty string.  The Bounce and Complaint branches, by
    contrast, never emit an event for an empty address. *)
Theorem delivery_keeps_empty_addresses {L : PyLib} :
  (forall request m mail headers ts delivery rs,
      Notification request m mail headers ts ->
      dict_get m "notificationType" (JStr "") = JStr "Delivery" ->
      dict_get m "delivery" (JObj []) = JObj delivery ->
      effective_recipients delivery mail = JArr rs ->
      exists events,
        parse_events request = ret events /\
        Forall2 (fun r e => recipient e = r /\ raw_event e = "Delivery"
                            /\ delivery_status e = DELIVERED)
                rs events /\
        (forall i, nth_error rs i = Some (JStr "") ->
                   exists e, nth_error events i = Some e
                             /\ recipient e = JStr "")) /\
  (forall request m mail headers ts kind section key data infos events,
      In (kind, section, key) entry_kinds ->
      Notification request m mail headers ts ->
      reports_entries m kind section key data infos ->
      result (parse_events request) = Ok events ->
      ~ In (JStr "") (map recipient events)).
Proof.
  split.
  - intros request m mail headers ts delivery rs H Hty Hd Hr.
    exists (map (event_of "Delivery" DELIVERED mail headers ts) rs).
    split;
      [now apply parse_events_delivery with (m := m) (delivery := delivery)|].
    split.
    + clear Hr. induction rs as [|r rs IH]; cbn [map]; constructor; auto.
    + intros i Hi. rewrite nth_error_map, Hi. cbn. eauto.
  - intros request m mail headers ts kind section key data infos events
           Hk H Hrep Hres.
    rewrite (parse_events_entries request m mail headers ts kind section key
                                  data infos Hk H Hrep) in Hres.
    apply entries_outcome_events in Hres. destruct Hres as [_ ->].
    rewrite map_map. intros Hin. apply in_map_iff in Hin.
    destruct Hin as (r & Hr & Hin).
    apply addresses_truthy in Hin.
    unfold entry_event in Hr.
    destruct (String.eqb kind "Bounce"); cbn in Hr; subst r; discriminate.
Qed.

Lemma delivery_keeps_empty_addresses_witness :
  (exists events,
      parse_events (L := RefLib) blank_delivery_request = ret events /\
      Forall2 (fun r e => recipient e = r /\ raw_event e = "Delivery"
                          /\ delivery_status e = DELIVERED)
              [JStr "user1@example.com"; JStr ""] events /\
      (forall i,
          nth_error [JStr "user1@example.com"; JStr ""] i = Some (JStr "") ->
          exists e, nth_error events i = Some e /\ recipient e = JStr "")) /\
  ~ In (JStr "")
       (map recipient
            [event_of "Bounce:Transient" SOFT_BOUNCED bounce_mail
                      [("subject", JStr "Hello")] None
                      (JStr "user@example.com");
             event_of "Bounce:Transient" SOFT_BOUNCED bounce_mail
                      [("subject", JStr "Hello")] None
                      (JStr "other@example.com")]).
Proof.
  split.
  - apply (proj1 (delivery_keeps_empty_addresses (L := RefLib))
                 blank_delivery_request blank_delivery_message
                 blank_delivery_mail [] None blank_delivery_data
                 [JStr "user1@example.com"; JStr ""]).
    + exact blank_delivery_request_notification.
    + reflexivity.
    + reflexivity.
    + reflexivity.
  - apply (proj2 (delivery_keeps_empty_addresses (L := RefLib))
                 bounce_request_4
                 (bounce_message [entry_user; JObj entry_blank;
                                  entry_without_address; entry_other])
                 bounce_mail [("subject", JStr "Hello")]
                 None "Bounce" "bounce" "bouncedRecipients"
                 (bounce_data [entry_user; JObj entry_blank;
                               entry_without_address; entry_other])
                 [entry_user; JObj entry_blank; entry_without_address;
                  entry_other]).
    + left. reflexivity.
    + exact bounce_request_4_notification.
    + repeat split.
    + vm_compute. reflexivity.
Defined.

(** C2.  In a Bounce notification whose sub-type (the [bounceType] of
    [bounce], ["Permanent"] when the key is missing) is the string [bt],
    every emitted event has the raw event ["Bounce:"] followed by [bt] as it
    stands, the status SOFT_BOUNCED exactly when [bt] is ["Transient"] and
    HARD_BOUNCED for every other [bt]; when the key is missing the events are
    ["Bounce:Permanent"] and HARD_BOUNCED.  Events are emitted: when the
    entries are objects, there is one per non-empty address. *)
Theorem bounce_status_and_raw_event
        {L : PyLib} request m mail headers ts bounce bt infos :
  Notification request m mail headers ts ->
  dict_get m "notificationType" (JStr "") = JStr "Bounce" ->
  dict_get m "bounce" (JObj []) = JObj bounce ->
  dict_get bounce "bounceType" (JStr "Permanent") = JStr bt ->
  dict_get bounce "bouncedRecipients" (JArr []) = JArr infos ->
  (forallb is_dict infos = true ->
   exists events,
     parse_events request = ret events /\
     map recipient events = addresses infos) /\
  (forall events e,
      result (parse_events request) = Ok events ->
      In e events ->
      raw_event e = ("Bounce:" ++ bt)%string /\
      (delivery_status e = SOFT_BOUNCED <-> bt = "Transient") /\
      (bt <> "Transient" -> delivery_status e = HARD_BOUNCED) /\
      (dict_lookup "bounceType" bounce = None ->
       raw_event e = "Bounce:Permanent" /\ delivery_status e = HARD_BOUNCED)).
Proof.
  intros H Hty Hb Hbt Hi.
  rewrite (parse_events_bounce request m mail headers ts bounce infos
                               H Hty Hb Hi).
  rewrite Hbt, py_format_str. unfold bounce_status. cbn [py_eq_str].
  split.
  - intros Hdicts. unfold entries_outcome. rewrite Hdicts.
    eexists. split; [reflexivity|].
    rewrite map_map. cbn [event_of recipient]. apply map_id.
  - intros events e Hres He.
    apply entries_outcome_events in Hres. destruct Hres as [_ ->].
    apply in_map_iff in He. destruct He as (r & <- & _).
    cbn [event_of raw_event delivery_status].
    split; [reflexivity|].
    destruct (String.eqb_spec bt "Transient") as [Heq | Hneq].
    + split; [tauto|]. split; [tauto|].
      intros Hnone. unfold dict_get in Hbt. rewrite Hnone in Hbt.
      inversion Hbt. subst bt. discriminate.
    + split; [split; [discriminate | tauto]|]. split; [tauto|].
      intros Hnone. unfold dict_get in Hbt. rewrite Hnone in Hbt.
      inversion Hbt. now split.
Qed.

Lemma bounce_status_and_raw_event_witness :
  exists events,
    parse_events (L := RefLib) bounce_request_4 = ret events /\
    map recipient events
    = [JStr "user@example.com"; JStr "other@example.com"] /\
    Forall (fun e => raw_event e = "Bounce:Transient"
                     /\ delivery_status e = SOFT_BOUNCED)
           events.
Proof.
  destruct (bounce_status_and_raw_event
              (L := RefLib) bounce_request_4
              (bounce_message [entry_user; JObj entry_blank;
                               entry_without_address; entry_other])
              bounce_mail [("subject", JStr "Hello")] None
              (bounce_data [entry_user; JObj entry_blank;
                            entry_without_address; entry_other])
              "Transient"
              [entry_user; JObj entry_blank; entry_without_address;
               entry_other]
              bounce_request_4_notification eq_refl eq_refl eq_refl eq_refl)
    as [Hruns Hall].
  destruct (Hruns eq_refl) as (events & Hrun & Hrecipients).
  exists events. split; [exact Hrun|]. split; [exact Hrecipients|].
  apply Forall_forall. intros e He.
  destruct (Hall events e) as (Hraw & Hsoft & _).
  - rewrite Hrun. reflexivity.
  - exact He.
  - split; [exact Hraw | apply Hsoft; reflexivity].
Defined.

(** C3.  In a Complaint notification every emitted event has the status
    SPAM_COMPLAINT and the raw event ["Complaint"]; when the entries of
    [complainedRecipients] are objects, the events are those of the entries
    that carry a non-empty [emailAddress], one each and in order. *)
Theorem complaint_events
        {L : PyLib} request m mail headers ts complaint infos :
  Notification request m mail headers ts ->
  dict_get m "notificationType" (JStr "") = JStr "Complaint" ->
  dict_get m "complaint" (JObj []) = JObj complaint ->
  dict_get complaint "complainedRecipients" (JArr []) = JArr infos ->
  (forallb is_dict infos = true ->
   exists events,
     parse_events request = ret events /\
     map recipient events = addresses infos) /\
  (forall events e,
      result (parse_events request) = Ok events ->
      In e events ->
      delivery_status e = SPAM_COMPLAINT /\ raw_event e = "Complaint").
Proof.
  intros H Hty Hc Hi.
  rewrite (parse_events_complaint request m mail headers ts complaint infos
                                  H Hty Hc Hi).
  split.
  - intros Hdicts. unfold entries_outcome. rewrite Hdicts.
    eexists. split; [reflexivity|].
    rewrite map_map. cbn [event_of recipient]. apply map_id.
  - intros events e Hres He.
    apply entries_outcome_events in Hres. destruct Hres as [_ ->].
    apply in_map_iff in He. destruct He as (r & <- & _).
    split; reflexivity.
Qed.

Lemma complaint_events_witness :
  exists events,
    parse_events (L := RefLib) complaint_request = ret events /\
    map recipient events = [JStr "user@example.com"] /\
    Forall (fun e => delivery_status e = SPAM_COMPLAINT
                     /\ raw_event e = "Complaint")
           events.
Proof.
  destruct (complaint_events
              (L := RefLib) complaint_request complaint_message
              complaint_mail [] None complaint_data
              [entry_user; JObj entry_blank]
              complaint_request_notification eq_refl eq_refl eq_refl)
    as [Hruns Hall].
  destruct (Hruns eq_refl) as (events & Hrun & Hrecipients).
  exists events. split; [exact Hrun|]. split; [exact Hrecipients|].
  apply Forall_forall. intros e He.
  apply (Hall events e); [rewrite Hrun; reflexivity | exact He].
Defined.

(** C8.  In a Bounce or Complaint notification, an entry of the reported
    list whose [emailAddress] is missing or is the empty string yields no
    event and no error, and its siblings are processed as usual: when they
    are objects, [parse_events] returns the events of the entries before it
    followed by the events of the entries after it, one for each sibling
    that has a non-empty address. *)
Theorem entry_without_address_is_skipped
        {L : PyLib} request m mail headers ts kind section key
        data pre entry post :
  In (kind, section, key) entry_kinds ->
  Notification request m mail headers ts ->
  reports_entries m kind section key data (pre ++ JObj entry :: post) ->
  dict_lookup "emailAddress" entry = None
  \/ dict_lookup "emailAddress" entry = Some (JStr "") ->
  forallb is_dict (pre ++ post) = true ->
  parse_events request
  = ret (map (entry_event kind data mail headers ts) (addresses pre)
         ++ map (entry_event kind data mail headers ts) (addresses post)).
Proof.
  intros Hk H Hrep Haddr Hsiblings.
  rewrite (parse_events_entries request m mail headers ts kind section key
                                data _ Hk H Hrep).
  rewrite entries_outcome_skip.
  - unfold entries_outcome. rewrite Hsiblings.
    now rewrite addresses_app, map_app.
  - unfold dict_get. destruct Haddr as [-> | ->]; reflexivity.
Qed.

Lemma entry_without_address_is_skipped_witness :
  parse_events (L := RefLib) bounce_request_4
  = ret ([mkESPEvent "Bounce:Transient" SOFT_BOUNCED
                     (JStr "user@example.com") (JStr "abc123") None
                     (JStr "Hello")
                     (JArr [JStr "user@example.com";
                            JStr "other@example.com"])]
         ++ [mkESPEvent "Bounce:Transient" SOFT_BOUNCED
                        (JStr "other@example.com") (JStr "abc123") None
                        (JStr "Hello")
                        (JArr [JStr "user@example.com";
                               JStr "other@example.com"])]).
Proof.
  apply (entry_without_address_is_skipped
           (L := RefLib) bounce_request_4
           (bounce_message [entry_user; JObj entry_blank;
                            entry_without_address; entry_other])
           bounce_mail [("subject", JStr "Hello")] None
           "Bounce" "bounce" "bouncedRecipients"
           (bounce_data [entry_user; JObj entry_blank;
                         entry_without_address; entry_other])
           [entry_user] entry_blank [entry_without_address; entry_other]).
  - left. reflexivity.
  - exact bounce_request_4_notification.
  - repeat split.
  - right. reflexivity.
  - reflexivity.
Defined.

(** ** The events of one notification *)

Lemma uniform_nil l : uniform (Ok [], l).
Proof.
  cbv [uniform result fst].
  exists "", DELIVERED, JNull, None, JNull, JNull, []. reflexivity.
Qed.

Lemma uniform_map raw status mid ts subj dests rs l :
  uniform (Ok (map (fun r => mkESPEvent raw status r mid ts subj dests) rs), l).
Proof. cbv [uniform result fst]. eauto 10. Qed.

Lemma uniform_event_of raw status mail headers ts rs l :
  uniform (Ok (map (event_of raw status mail headers ts) rs), l).
Proof.
  exact (uniform_map raw status (dict_get mail "messageId" JNull) ts
                     (dict_get headers "subject" JNull)
                     (dict_get mail "destination" (JArr [])) rs l).
Qed.

Lemma uniform_log {lvl text a} {f : unit -> M (list ESPEvent)} :
  uniform (f tt) -> uniform (bind (log lvl text a) f).
Proof. rewrite bind_log. exact (fun H => H). Qed.

(** Replaces the computation of the goal by [m], the two being equal by
    [lemma]. *)
Ltac replace_goal m lemma :=
  match goal with
  | |- uniform ?x => replace x with m by (symmetry; exact lemma)
  end.

Lemma uniform_entries_outcome raw status mail headers ts infos :
  uniform (entries_outcome (event_of raw status mail headers ts) infos).
Proof.
  unfold entries_outcome. destruct (forallb is_dict infos).
  - apply uniform_event_of.
  - exact I.
Qed.

Section Uniform.
Context {L : PyLib}.

Lemma parse_timestamp_cases (mail_data : json) :
  (exists ts, parse_timestamp mail_data = ret ts)
  \/ (exists e, parse_timestamp mail_data = raise e).
Proof.
  unfold parse_timestamp.
  destruct mail_data; cbn [py_get]; try (right; eexists; reflexivity).
  rewrite bind_ret_l.
  destruct (truthy (dict_get members "timestamp" JNull));
    [|left; eexists; reflexivity].
  destruct (dict_get members "timestamp" JNull); cbn [py_replace];
    try (right; eexists; reflexivity).
  rewrite bind_ret_l. unfold datetime_fromisoformat.
  destruct (fromisoformat _); left; eexists; reflexivity.
Qed.

Lemma parse_events_uniform request : uniform (parse_events request).
Proof.
  unfold parse_events.
  match goal with
  | |- uniform (bind _ ?k) => assert (Hk : forall payload, uniform (k payload))
  end.
  2: { destruct request as [http | payload].
       - unfold json_loads_body.
         destruct (json_loads_bytes (body http)) as [payload | e].
         + rewrite lift_ok, try_except_ret, bind_ret_l. apply Hk.
         + destruct e; exact I.
       - rewrite bind_ret_l. apply Hk. }
  intros payload.
  destruct payload; try exact I. cbn [py_get]. rewrite bind_ret_l.
  destruct (truthy (dict_get members "Message" (JStr ""))); cbn [negb];
    [|apply uniform_log, uniform_nil].
  destruct (dict_get members "Message" (JStr "")); try exact I.
  cbn [py_json_loads]. destruct (json_loads s) as [message | e];
    [|destruct e; first [apply uniform_nil | exact I]].
  run.
  destruct message as [| | | | |? |m]; try exact I.
  run.
  destruct (dict_get m "mail" (JObj [])) as [| | | | |? |mail] eqn:Hmail; try exact I.
  run.
  destruct (dict_get mail "commonHeaders" (JObj [])) as [| | | | |? |headers];
    try exact I.
  run.
  destruct (parse_timestamp_cases (JObj mail)) as [[ts ->] | [e ->]];
    [|exact I].
  rewrite bind_ret_l.
  destruct (py_eq_str _ "Delivery").
  { destruct (dict_get m "delivery" (JObj [])) as [| | | | |? |delivery];
      try exact I.
    run. unfold py_for.
    destruct (dict_get delivery "recipients"
                       (dict_get mail "destination" (JArr []))); try exact I;
      run;
      match goal with
      | |- uniform (for_each ?items _ _) =>
          replace_goal
            (ret (map (event_of "Delivery" DELIVERED mail headers ts) items))
            (for_each_append (event_of "Delivery" DELIVERED mail headers ts)
                             items [])
      end; apply uniform_event_of. }
  destruct (py_eq_str _ "Bounce").
  { destruct (dict_get m "bounce" (JObj [])) as [| | | | |? |bounce];
      try exact I.
    run. unfold py_for.
    pose (mk := event_of
                  ("Bounce:" ++
                   py_format (dict_get bounce "bounceType" (JStr "Permanent")))
                  (bounce_status
                     (dict_get bounce "bounceType" (JStr "Permanent")))
                  mail headers ts).
    destruct (dict_get bounce "bouncedRecipients" (JArr [])); try exact I;
      run;
      match goal with
      | |- uniform (for_each ?items _ _) =>
          replace_goal (entries_outcome mk items)
                       (for_each_entries mk items [])
      end; apply uniform_entries_outcome. }
  destruct (py_eq_str _ "Complaint").
  { destruct (dict_get m "complaint" (JObj [])) as [| | | | |? |complaint];
      try exact I.
    run. unfold py_for.
    pose (mk := event_of "Complaint" SPAM_COMPLAINT mail headers ts).
    destruct (dict_get complaint "complainedRecipients" (JArr []));
      try exact I;
      run;
      match goal with
      | |- uniform (for_each ?items _ _) =>
          replace_goal (entries_outcome mk items)
                       (for_each_entries mk items [])
      end; apply uniform_entries_outcome. }
  apply uniform_log, uniform_nil.
Qed.

End Uniform.

(** C7.  Whatever the request, the events that one call of [parse_events]
    returns carry the same [message_id], [timestamp], [subject],
    [to_addresses], [raw_event] and [delivery_status]: two of them can differ
    in their [recipient] only. *)
Theorem events_agree_but_recipient
        {L : PyLib} request events e1 e2 :
  result (parse_events request) = Ok events ->
  In e1 events ->
  In e2 events ->
  agree_but_recipient e1 e2.
Proof.
  intros Hres H1 H2.
  pose proof (parse_events_uniform request) as Hu.
  unfold uniform in Hu. rewrite Hres in Hu.
  destruct Hu as (raw & status & mid & ts & subj & dests & rs & ->).
  apply in_map_iff in H1. destruct H1 as (r1 & <- & _).
  apply in_map_iff in H2. destruct H2 as (r2 & <- & _).
  repeat split.
Qed.

Lemma events_agree_but_recipient_witness :
  agree_but_recipient
    (event_of "Delivery" DELIVERED delivery_mail []
              (Some utc_2024_01_02_03_04_05) (JStr "user1@example.com"))
    (event_of "Delivery" DELIVERED delivery_mail []
              (Some utc_2024_01_02_03_04_05) (JStr "user2@example.com")).
Proof.
  apply (events_agree_but_recipient
           (L := RefLib) delivery_request
           (map (event_of "Delivery" DELIVERED delivery_mail []
                          (Some utc_2024_01_02_03_04_05))
                [JStr "user1@example.com"; JStr "user2@example.com"])).
  - vm_compute. reflexivity.
  - left. reflexivity.
  - right. left. reflexivity.
Defined.

(** ** Envelopes without a usable message *)

(** An [HttpRequest] whose body decodes to the payload [p] is parsed as
    [p] itself is. *)
Lemma parse_events_of_payload {L : PyLib} request p :
  carries_payload request p ->
  parse_events request = parse_events (OfPayload (JObj p)).
Proof.
  destruct request as [http | payload]; cbn [carries_payload]; intros Hp.
  - unfold parse_events, json_loads_body. rewrite Hp.
    now rewrite lift_ok, try_except_ret.
  - now subst payload.
Qed.

Section NoMessage.

Context {L : PyLib}.

Lemma parse_events_no_message request p :
  carries_payload request p ->
  truthy (dict_get p "Message" (JStr "")) = false ->
  parse_events request
  = (Ok [], [LogRecord WARNING "No Message in SNS payload" []]).
Proof.
  intros Hp Hfalsy. rewrite (parse_events_of_payload request p Hp).
  unfold parse_events. run. now rewrite Hfalsy.
Qed.

Lemma parse_events_undecodable request p text :
  carries_payload request p ->
  dict_get p "Message" (JStr "") = JStr text ->
  text <> "" ->
  json_loads text = Raise JSONDecodeError ->
  parse_events request
  = (Ok [], [LogRecord ERROR "Failed to parse inner SNS Message JSON" []]).
Proof.
  intros Hp Hmsg Hne Hdec. rewrite (parse_events_of_payload request p Hp).
  unfold parse_events. run. rewrite Hmsg.
  cbn [truthy]. rewrite (string_eqb_neq _ _ Hne). cbn [negb py_json_loads].
  now rewrite Hdec.
Qed.

End NoMessage.

(** [parse_events] raises on an envelope whose [Message] is 2048 opening
    brackets: the text is not JSON, but [json.loads] gives up with
    [RecursionError] before it finds that out, and the handler catches
    [JSONDecodeError] only. *)
Lemma parse_events_raises_on_deep_message :
  result (parse_events (L := RefLib) (OfPayload (JObj deep_message_payload)))
  = Raise RecursionError.
Proof. vm_compute. reflexivity. Qed.

(** C4, amended.  When the payload has no [Message], or an empty one, or
    one on whose text [json.loads] raises [JSONDecodeError], [parse_events]
    returns the empty list of events, raises nothing and leaves exactly one
    record in the log: the warning of the missing message or the error of
    the failed decoding. *)
Theorem missing_or_undecodable_message {L : PyLib} request p :
  carries_payload request p ->
  dict_lookup "Message" p = None
  \/ dict_lookup "Message" p = Some (JStr "")
  \/ (exists text, dict_lookup "Message" p = Some (JStr text)
                   /\ json_loads text = Raise JSONDecodeError) ->
  result (parse_events request) = Ok [] /\
  (records (parse_events request)
   = [LogRecord WARNING "No Message in SNS payload" []]
   \/ records (parse_events request)
      = [LogRecord ERROR "Failed to parse inner SNS Message JSON" []]).
Proof.
  intros Hp Hmsg.
  assert (Hwarn : truthy (dict_get p "Message" (JStr "")) = false ->
                  result (parse_events request) = Ok [] /\
                  (records (parse_events request)
                   = [LogRecord WARNING "No Message in SNS payload" []]
                   \/ records (parse_events request)
                      = [LogRecord
                           ERROR "Failed to parse inner SNS Message JSON" []])).
  { intros Hfalsy. rewrite (parse_events_no_message request p Hp Hfalsy).
    split; [reflexivity | left; reflexivity]. }
  destruct Hmsg as [Hnone | [Hempty | (text & Htext & Hdec)]].
  - apply Hwarn. unfold dict_get. now rewrite Hnone.
  - apply Hwarn. unfold dict_get. now rewrite Hempty.
  - destruct (String.eqb_spec text "") as [-> | Hne].
    + apply Hwarn. unfold dict_get. now rewrite Htext.
    + rewrite (parse_events_undecodable request p text Hp); trivial.
      * split; [reflexivity | right; reflexivity].
      * unfold dict_get. now rewrite Htext.
Qed.

Lemma missing_or_undecodable_message_witness :
  (result (parse_events (L := RefLib) empty_message_request) = Ok [] /\
   (records (parse_events (L := RefLib) empty_message_request)
    = [LogRecord WARNING "No Message in SNS payload" []]
    \/ records (parse_events (L := RefLib) empty_message_request)
       = [LogRecord ERROR "Failed to parse inner SNS Message JSON" []])) /\
  (result (parse_events (L := RefLib)
                        (OfPayload (JObj garbled_message_payload))) = Ok [] /\
   (records (parse_events (L := RefLib)
                          (OfPayload (JObj garbled_message_payload)))
    = [LogRecord WARNING "No Message in SNS payload" []]
    \/ records (parse_events (L := RefLib)
                             (OfPayload (JObj garbled_message_payload)))
       = [LogRecord ERROR "Failed to parse inner SNS Message JSON" []])).
Proof.
  split.
  - apply (missing_or_undecodable_message
             (L := RefLib) empty_message_request empty_message_payload).
    + vm_compute. reflexivity.
    + right. left. reflexivity.
  - apply (missing_or_undecodable_message
             (L := RefLib) (OfPayload (JObj garbled_message_payload))
             garbled_message_payload).
    + reflexivity.
    + right. right. exists "{not json". split; [reflexivity|].
      vm_compute. reflexivity.
Defined.

(** ** Subscription confirmations *)



(** ** Timestamps *)

Section Timestamps.

Context {L : PyLib}.

(** A trailing ["Z"] is read as the offset ["+00:00"]. *)
Lemma str_replace_trailing_Z (s : string) :
  str_replace "Z" "+00:00" (s ++ "Z")
  = str_replace "Z" "+00:00" (s ++ "+00:00").
Proof.
  induction s as [|c s IH]; [reflexivity|].
  cbn [append str_replace]. now rewrite IH.
Qed.

(** A timestamp that is a string is parsed after the replacement of its
    ["Z"]; a string that [fromisoformat] rejects gives [None]. *)
Lemma parse_timestamp_of_string mail s :
  dict_get mail "timestamp" JNull = JStr s ->
  parse_timestamp (JObj mail)
  = ret (if String.eqb s "" then None
         else fromisoformat (str_replace "Z" "+00:00" s)).
Proof.
  intros Hts. unfold parse_timestamp. cbn [py_get]. rewrite bind_ret_l, Hts.
  cbn [truthy]. destruct (String.eqb s ""); cbn [negb]; [reflexivity|].
  cbn [py_replace]. rewrite bind_ret_l. unfold datetime_fromisoformat.
  destruct (fromisoformat _); reflexivity.
Qed.

(** A missing or falsy timestamp gives [None]. *)
Lemma parse_timestamp_of_falsy mail :
  truthy (dict_get mail "timestamp" JNull) = false ->
  parse_timestamp (JObj mail) = ret None.
Proof.
  intros Hts. unfold parse_timestamp. cbn [py_get].
  now rewrite bind_ret_l, Hts.
Qed.

(** A timestamp that is neither falsy nor a string has no [replace]: the
    [AttributeError] is not among the exceptions that the block catches. *)
Lemma parse_timestamp_not_a_string mail :
  truthy (dict_get mail "timestamp" JNull) = true ->
  is_str (dict_get mail "timestamp" JNull) = false ->
  parse_timestamp (JObj mail) = raise AttributeError.
Proof.
  intros Ht Hs. unfold parse_timestamp. cbn [py_get].
  rewrite bind_ret_l, Ht.
  destruct (dict_get mail "timestamp" JNull); try discriminate; reflexivity.
Qed.

End Timestamps.

(** The timestamp of [test_parse_delivery_multiple_recipients]. *)
Example parse_timestamp_utc :
  parse_timestamp (L := RefLib) (JObj delivery_mail)
  = ret (Some utc_2024_01_02_03_04_05).
Proof. vm_compute. reflexivity. Qed.

(** C6.  A delivery whose [mail.timestamp] is the number 1704164645: the
    timestamp block raises [AttributeError], which leaves [parse_events]; no
    event is returned. *)
Theorem numeric_timestamp_aborts_notification :
  parse_events (L := RefLib) numeric_timestamp_request
  = (Raise AttributeError, []).
Proof. vm_compute. reflexivity. Qed.

(** ** Malformed and partial input *)

(** The exceptions of [parse_events] are meant for its caller:
    [_handle_notification] catches whatever the classifier raises, logs it
    and answers 400. *)
Lemma handle_notification_catches {L : PyLib} (self : Handler) payload e l :
  self_parse_events self (OfPayload payload) = (Raise e, l) ->
  _handle_notification self payload
  = (Ok (JsonResponse (JObj [("error", JStr "Failed to parse events")]) 400),
     l ++ [LogRecord ERROR "Error parsing SES events: {}" [ArgExn e]]).
Proof.
  intros Hraise. unfold _handle_notification. rewrite Hraise.
  cbn. now rewrite ?app_nil_r.
Qed.

(** A request whose body is not JSON: the error is logged and raised
    again. *)
Lemma parse_events_reraises {L : PyLib} http :
  json_loads_bytes (body http) = Raise JSONDecodeError ->
  parse_events (OfRequest http)
  = (Raise JSONDecodeError,
     [LogRecord ERROR "Failed to parse SES webhook JSON" []]).
Proof.
  intros Hbody. unfold parse_events, json_loads_body. now rewrite Hbody.
Qed.

(** [parse_events] raises on an envelope whose [Message] is the JSON text
    of a list: a list has no [get]. *)
Lemma parse_events_raises_on_list_message :
  result (parse_events (L := RefLib) list_message_request)
  = Raise AttributeError.
Proof. vm_compute. reflexivity. Qed.

Lemma is_dict_with_inv check v :
  is_dict_with check v = true -> exists d, v = JObj d /\ check d = true.
Proof. destruct v; try discriminate. cbn. eauto. Qed.

Lemma is_list_of_inv check v :
  is_list_of check v = true ->
  exists items, v = JArr items /\ forallb check items = true.
Proof. destruct v; try discriminate. cbn. eauto. Qed.

Lemma is_list_inv v : is_list v = true -> exists items, v = JArr items.
Proof. destruct v; try discriminate. eauto. Qed.

Lemma is_dict_inv v : is_dict v = true -> exists d, v = JObj d.
Proof. destruct v; try discriminate. eauto. Qed.

(** C5, amended.  [parse_events] returns a list without raising on every
    payload whose [Message] is missing, falsy or text on which [json.loads]
    raises [JSONDecodeError], and on every payload whose [Message] decodes
    to a well-typed message: an object in which the fields that the handler
    reads are missing or have the types of the wire shape. *)
Theorem parse_events_returns_on_well_typed_payloads
        {L : PyLib} request p :
  carries_payload request p ->
  well_typed_payload p = true ->
  exists events, result (parse_events request) = Ok events.
Proof.
  intros Hp Hwt.
  unfold well_typed_payload in Hwt.
  destruct (dict_get p "Message" (JStr "")) as [| | | |text| |] eqn:Hmsg.
  1-4, 6-7:
    apply negb_true_iff in Hwt;
    rewrite (parse_events_no_message request p Hp)
      by (rewrite Hmsg; exact Hwt);
    eexists; reflexivity.
  destruct (String.eqb_spec text "") as [-> | Hne].
  { rewrite (parse_events_no_message request p Hp) by now rewrite Hmsg.
    eexists. reflexivity. }
  destruct (json_loads text) as [message | e] eqn:Hdec.
  2: { destruct e; try discriminate.
       rewrite (parse_events_undecodable request p text Hp Hmsg Hne Hdec).
       eexists. reflexivity. }
  assert (Hlookup : dict_lookup "Message" p = Some (JStr text)).
  { unfold dict_get in Hmsg. destruct (dict_lookup "Message" p).
    - now subst.
    - inversion Hmsg. congruence. }
  apply is_dict_with_inv in Hwt. destruct Hwt as (m & -> & Hm).
  apply is_dict_with_inv in Hm. destruct Hm as (mail & Hmail & Hfields).
  cbv zeta in Hfields.
  apply andb_prop in Hfields. destruct Hfields as [Hfields Hbranch].
  apply andb_prop in Hfields. destruct Hfields as [Hheaders Hts].
  apply is_dict_inv in Hheaders. destruct Hheaders as (headers & Hheaders).
  assert (Htimestamp : exists ts, parse_timestamp (JObj mail) = ret ts).
  { destruct (truthy (dict_get mail "timestamp" JNull)) eqn:Htruthy.
    - cbn [negb] in Hts. rewrite orb_false_r in Hts.
      destruct (dict_get mail "timestamp" JNull) as [| | | |s| |] eqn:Hv;
        try discriminate.
      eexists. exact (parse_timestamp_of_string mail s Hv).
    - exists None. now apply parse_timestamp_of_falsy. }
  destruct Htimestamp as (ts & Htimestamp).
  assert (HN : Notification request m mail headers ts).
  { split; trivial. exists p, text. auto. }
  destruct (py_eq_str (dict_get m "notificationType" (JStr "")) "Delivery")
           eqn:Hd.
  { apply py_eq_str_true in Hd.
    apply is_dict_with_inv in Hbranch.
    destruct Hbranch as (delivery & Hdelivery & Hrs).
    apply is_list_inv in Hrs. destruct Hrs as (rs & Hrs).
    rewrite (parse_events_delivery request m mail headers ts delivery rs
                                   HN Hd Hdelivery Hrs).
    eexists. reflexivity. }
  destruct (py_eq_str (dict_get m "notificationType" (JStr "")) "Bounce")
           eqn:Hb.
  { apply py_eq_str_true in Hb.
    apply is_dict_with_inv in Hbranch.
    destruct Hbranch as (bounce & Hbounce & Hinfos).
    apply is_list_of_inv in Hinfos. destruct Hinfos as (infos & Hinfos & Hall).
    rewrite (parse_events_bounce request m mail headers ts bounce infos
                                 HN Hb Hbounce Hinfos).
    unfold entries_outcome. rewrite Hall. eexists. reflexivity. }
  destruct (py_eq_str (dict_get m "notificationType" (JStr "")) "Complaint")
           eqn:Hc.
  { apply py_eq_str_true in Hc.
    apply is_dict_with_inv in Hbranch.
    destruct Hbranch as (complaint & Hcomplaint & Hinfos).
    apply is_list_of_inv in Hinfos. destruct Hinfos as (infos & Hinfos & Hall).
    rewrite (parse_events_complaint request m mail headers ts complaint infos
                                    HN Hc Hcomplaint Hinfos).
    unfold entries_outcome. rewrite Hall. eexists. reflexivity. }
  rewrite (parse_events_unmapped request m mail headers ts HN Hd Hb Hc).
  eexists. reflexivity.
Qed.

Lemma parse_events_returns_on_well_typed_payloads_witness :
  exists events,
    result (parse_events (L := RefLib) (OfPayload (JObj partial_bounce_payload)))
    = Ok events.
Proof.
  apply (parse_events_returns_on_well_typed_payloads
           (L := RefLib) (OfPayload (JObj partial_bounce_payload))
           partial_bounce_payload).
  - reflexivity.
  - vm_compute. reflexivity.
Defined.

(** A bounce that has neither [mail] nor [bounceType]: one hard bounce. *)
Example partial_bounce_events :
  parse_events (L := RefLib) (OfPayload (JObj partial_bounce_payload))
  = ret [mkESPEvent "Bounce:Permanent" HARD_BOUNCED (JStr "x@y.com")
                    JNull None JNull (JArr [])].
Proof. vm_compute. reflexivity. Qed.

(** ** The tests of [test_webhooks_ses.py], run on the model *)

Example test_parse_delivery_multiple_recipients :
  parse_events (L := RefLib) delivery_request
  = ret (map (event_of "Delivery" DELIVERED delivery_mail []
                       (Some utc_2024_01_02_03_04_05))
             [JStr "user1@example.com"; JStr "user2@example.com"]).
Proof. vm_compute. reflexivity. Qed.

Example test_parse_bounce_permanent :
  parse_events (L := RefLib) permanent_bounce_request
  = ret [mkESPEvent "Bounce:Permanent" HARD_BOUNCED
                    (JStr "invalid@example.com") (JStr "abc123") None JNull
                    (JArr [JStr "invalid@example.com"])].
Proof. vm_compute. reflexivity. Qed.

Example test_parse_bounce_transient :
  map delivery_status
      (match result (parse_events (L := RefLib) bounce_request_3) with
       | Ok events => events
       | Raise _ => []
       end)
  = [SOFT_BOUNCED; SOFT_BOUNCED].
Proof. vm_compute. reflexivity. Qed.

Example test_parse_complaint :
  parse_events (L := RefLib) complaint_request
  = ret [mkESPEvent "Complaint" SPAM_COMPLAINT (JStr "user@example.com")
                    (JStr "abc123") None JNull
                    (JArr [JStr "user@example.com"])].
Proof. vm_compute. reflexivity. Qed.

Example test_parse_subscription_confirmation :
  result (post (L := RefLib) (SESWebhookHandler accepting_collaborator)
               subscription_request)
  = Ok (subscription_response subscription_payload).
Proof. vm_compute. reflexivity. Qed.

Example test_parse_empty_message :
  result (parse_events (L := RefLib) empty_message_request) = Ok [].
Proof. vm_compute. reflexivity. Qed.

Example test_parse_unknown_notification_type :
  parse_events (L := RefLib) unknown_type_request
  = (Ok [],
     [LogRecord DEBUG "Ignoring unmapped SES notification type: {}"
                [ArgValue (JStr "UnknownType")]]).
Proof. vm_compute. reflexivity. Qed.

(** A notification posted to the handler: the events are counted in the
    answer. *)
Example post_delivery_notification :
  match delivery_request with
  | OfRequest http =>
      post (L := RefLib) (SESWebhookHandler accepting_collaborator) http
      = ret (JsonResponse
               (JObj [("status", JStr "ok"); ("processed", JInt 2)]) 200)
  | OfPayload _ => False
  end.
Proof. vm_compute. reflexivity. Qed.

(** The same with a timestamp that is a number: the exception of the
    classifier becomes the answer 400. *)
Example post_numeric_timestamp :
  match numeric_timestamp_request with
  | OfRequest http =>
      post (L := RefLib) (SESWebhookHandler accepting_collaborator) http
      = (Ok (JsonResponse (JObj [("error", JStr "Failed to parse events")])
                          400),
         [LogRecord ERROR "Error parsing SES events: {}"
                    [ArgExn AttributeError]])
  | OfPayload _ => False
  end.
Proof. vm_compute. reflexivity. Qed.

(** ** Further properties: the dispatch of [post] *)

Lemma py_eq_str_false (v : json) (s : string) :
  v <> JStr s -> py_eq_str v s = false.
Proof.
  intros Hneq. destruct v; try reflexivity. cbn.
  apply String.eqb_neq. congruence.
Qed.

Ltac enter_post Hbody :=
  unfold post; cbn [self_verify_signature]; unfold verify_signature;
  rewrite bind_ret_l; cbn [negb];
  unfold json_loads_body; rewrite Hbody.

Ltac enter_handle_notification Htype :=
  run; rewrite Htype; cbn [py_eq_str String.eqb Ascii.eqb Bool.eqb];
  unfold _handle_notification; cbn [self_parse_events self_handle_events].

Section Post.

Context {L : PyLib}.

Variable classifier : request_or_payload -> M (list ESPEvent).
Variable collaborator : list ESPEvent -> json -> M unit.

(** X1.  A body on which [json.loads] raises [JSONDecodeError] is answered
    400 "Invalid JSON"; the decoding error is logged and neither the
    classifier nor the collaborator runs. *)
Theorem post_rejects_invalid_json request :
  json_loads_bytes (body request) = Raise JSONDecodeError ->
  post (mkHandler verify_signature classifier collaborator) request
  = (Ok (JsonResponse (JObj [("error", JStr "Invalid JSON")]) 400),
     [LogRecord ERROR "Failed to parse SNS payload: {}"
                [ArgExn JSONDecodeError]]).
Proof. intros Hbody. enter_post Hbody. reflexivity. Qed.

(** X2.  A payload whose [Type] is ["UnsubscribeConfirmation"] is answered
    200 with the status ["ok"]; it is logged and neither the classifier nor
    the collaborator runs. *)
Theorem post_acknowledges_unsubscribe request p :
  json_loads_bytes (body request) = Ok (JObj p) ->
  dict_get p "Type" (JStr "") = JStr "UnsubscribeConfirmation" ->
  post (mkHandler verify_signature classifier collaborator) request
  = (Ok (JsonResponse (JObj [("status", JStr "ok")]) 200),
     [LogRecord INFO "Received SNS UnsubscribeConfirmation" []]).
Proof.
  intros Hbody Htype. enter_post Hbody. run. rewrite Htype. reflexivity.
Qed.

(** X3.  A payload whose [Type] is none of the three known ones, be it
    missing or not even a string, is answered 400 "Unknown message type";
    the type is logged and neither the classifier nor the collaborator
    runs. *)
Theorem post_rejects_unknown_type request p :
  json_loads_bytes (body request) = Ok (JObj p) ->
  let message_type := dict_get p "Type" (JStr "") in
  message_type <> JStr "SubscriptionConfirmation" ->
  message_type <> JStr "UnsubscribeConfirmation" ->
  message_type <> JStr "Notification" ->
  post (mkHandler verify_signature classifier collaborator) request
  = (Ok (JsonResponse (JObj [("error", JStr "Unknown message type")]) 400),
     [LogRecord WARNING "Unknown SNS message type: {}"
                [ArgValue message_type]]).
Proof.
  intros Hbody message_type Hs Hu Hn. enter_post Hbody. run.
  fold message_type.
  rewrite (py_eq_str_false _ _ Hs), (py_eq_str_false _ _ Hu),
    (py_eq_str_false _ _ Hn).
  reflexivity.
Qed.

(** X4.  A body that is valid JSON but not an object has no [get]: [post]
    raises [AttributeError] and answers nothing. *)
Theorem post_raises_on_non_object_body request v :
  json_loads_bytes (body request) = Ok v ->
  is_dict v = false ->
  post (mkHandler verify_signature classifier collaborator) request
  = raise AttributeError.
Proof.
  intros Hbody Hv. enter_post Hbody. run.
  destruct v; try discriminate; reflexivity.
Qed.

(** X5.  With the [verify_signature] of the handler, which accepts every
    request, an answer of [post] has the status 200 or 400, whatever the
    request, the classifier and the collaborator: never 401. *)
Theorem post_answers_200_or_400 request response :
  result (post (mkHandler verify_signature classifier collaborator) request)
  = Ok response ->
  status_code response = 200%Z \/ status_code response = 400%Z.
Proof.
  unfold post. cbn [self_verify_signature]. unfold verify_signature.
  rewrite bind_ret_l. cbn [negb]. unfold json_loads_body.
  destruct (json_loads_bytes (body request)) as [payload | e].
  2: { destruct e; cbn; intros H; inversion H. now right. }
  run. destruct payload as [| | | | | |p]; try discriminate.
  run.
  destruct (py_eq_str (dict_get p "Type" (JStr "")) "SubscriptionConfirmation").
  { cbn. intros H. inversion H. now left. }
  destruct (py_eq_str (dict_get p "Type" (JStr "")) "UnsubscribeConfirmation").
  { cbn. intros H. inversion H. now left. }
  destruct (py_eq_str (dict_get p "Type" (JStr "")) "Notification").
  2: { cbn. intros H. inversion H. now right. }
  unfold _handle_notification. cbn [self_parse_events self_handle_events].
  destruct (classifier (OfPayload (JObj p))) as [[events | e] l1]; cbn.
  - destruct (collaborator events (JObj p)) as [[[] | e] l2]; cbn.
    + intros H. inversion H. now left.
    + discriminate.
  - intros H. inversion H. now right.
Qed.

(** X6.  For a ["Notification"] payload, when the classifier returns
    [events] and the collaborator accepts them, [post] has handed the
    collaborator these events with the whole payload and answers 200 with
    their number as [processed]; the log is that of the two, in order. *)
Theorem post_reports_processed_events request p events l1 l2 :
  json_loads_bytes (body request) = Ok (JObj p) ->
  dict_get p "Type" (JStr "") = JStr "Notification" ->
  classifier (OfPayload (JObj p)) = (Ok events, l1) ->
  collaborator events (JObj p) = (Ok tt, l2) ->
  post (mkHandler verify_signature classifier collaborator) request
  = (Ok (JsonResponse
           (JObj [("status", JStr "ok");
                  ("processed", JInt (Z.of_nat (length events)))])
           200),
     l1 ++ l2).
Proof.
  intros Hbody Htype Hparse Hhandle. enter_post Hbody.
  enter_handle_notification Htype.
  rewrite Hparse. cbn. rewrite Hhandle. cbn.
  now rewrite !app_nil_r.
Qed.

(** X7.  An exception of the collaborator is not caught: it leaves [post],
    after the log of the classifier and of the collaborator. *)
Theorem post_propagates_collaborator_exception request p events l1 e l2 :
  json_loads_bytes (body request) = Ok (JObj p) ->
  dict_get p "Type" (JStr "") = JStr "Notification" ->
  classifier (OfPayload (JObj p)) = (Ok events, l1) ->
  collaborator events (JObj p) = (Raise e, l2) ->
  post (mkHandler verify_signature classifier collaborator) request
  = (Raise e, l1 ++ l2).
Proof.
  intros Hbody Htype Hparse Hhandle. enter_post Hbody.
  enter_handle_notification Htype.
  rewrite Hparse. cbn. rewrite Hhandle. cbn.
  now rewrite !app_nil_r.
Qed.

(** X8.  Whatever exception the classifier raises on a ["Notification"]
    payload, [post] answers 400 "Failed to parse events" and logs the
    exception; the collaborator does not run. *)
Theorem post_answers_400_when_classifier_raises request p e l :
  json_loads_bytes (body request) = Ok (JObj p) ->
  dict_get p "Type" (JStr "") = JStr "Notification" ->
  classifier (OfPayload (JObj p)) = (Raise e, l) ->
  post (mkHandler verify_signature classifier collaborator) request
  = (Ok (JsonResponse (JObj [("error", JStr "Failed to parse events")]) 400),
     l ++ [LogRecord ERROR "Error parsing SES events: {}" [ArgExn e]]).
Proof.
  intros Hbody Htype Hparse. enter_post Hbody.
  enter_handle_notification Htype.
  rewrite Hparse. cbn. now rewrite !app_nil_r.
Qed.

End Post.

(** X20.  When [verify_signature] rejects the request, [post] answers 401
    "Invalid signature" with a warning, and reads nothing of the body. *)
Theorem post_answers_401_without_signature
        {L : PyLib} (self : Handler) request l :
  self_verify_signature self request = (Ok false, l) ->
  post self request
  = (Ok (JsonResponse (JObj [("error", JStr "Invalid signature")]) 401),
     l ++ [LogRecord WARNING "SNS signature verification failed" []]).
Proof.
  intros Hverify. unfold post. rewrite Hverify. cbn. now rewrite ?app_nil_r.
Qed.

(** X21.  A ["Notification"] payload without a usable [Message] (missing,
    falsy, or text on which [json.loads] raises [JSONDecodeError]) is no
    error for the caller: the handler gives the collaborator the empty list
    and answers 200 with [processed] 0, after one record in the log. *)
Theorem post_counts_no_event_without_message
        {L : PyLib} (collaborator : list ESPEvent -> json -> M unit)
        request p l :
  json_loads_bytes (body request) = Ok (JObj p) ->
  dict_get p "Type" (JStr "") = JStr "Notification" ->
  truthy (dict_get p "Message" (JStr "")) = false
  \/ (exists text, dict_get p "Message" (JStr "") = JStr text
                   /\ text <> ""
                   /\ json_loads text = Raise JSONDecodeError) ->
  collaborator [] (JObj p) = (Ok tt, l) ->
  exists record,
    post (SESWebhookHandler collaborator) request
    = (Ok (JsonResponse
             (JObj [("status", JStr "ok"); ("processed", JInt 0)]) 200),
       record :: l).
Proof.
  intros Hbody Htype Hmsg Hhandle.
  unfold SESWebhookHandler. enter_post Hbody.
  enter_handle_notification Htype.
  destruct Hmsg as [Hfalsy | (text & Htext & Hne & Hdec)].
  - rewrite (parse_events_no_message (OfPayload (JObj p)) p eq_refl Hfalsy).
    cbn. rewrite Hhandle. cbn. rewrite ?app_nil_r. eexists. reflexivity.
  - rewrite (parse_events_undecodable (OfPayload (JObj p)) p text eq_refl
                                      Htext Hne Hdec).
    cbn. rewrite Hhandle. cbn. rewrite ?app_nil_r. eexists. reflexivity.
Qed.

Lemma post_rejects_invalid_json_witness :
  post (L := RefLib)
       (mkHandler verify_signature failing_classifier failing_collaborator)
       garbled_body_request
  = (Ok (JsonResponse (JObj [("error", JStr "Invalid JSON")]) 400),
     [LogRecord ERROR "Failed to parse SNS payload: {}"
                [ArgExn JSONDecodeError]]).
Proof.
  apply (post_rejects_invalid_json
           (L := RefLib) failing_classifier failing_collaborator
           garbled_body_request).
  vm_compute. reflexivity.
Defined.

Lemma post_acknowledges_unsubscribe_witness :
  post (L := RefLib)
       (mkHandler verify_signature failing_classifier failing_collaborator)
       unsubscribe_request
  = (Ok (JsonResponse (JObj [("status", JStr "ok")]) 200),
     [LogRecord INFO "Received SNS UnsubscribeConfirmation" []]).
Proof.
  apply (post_acknowledges_unsubscribe
           (L := RefLib) failing_classifier failing_collaborator
           unsubscribe_request unsubscribe_payload).
  - vm_compute. reflexivity.
  - reflexivity.
Defined.

Lemma post_rejects_unknown_type_witness :
  post (L := RefLib)
       (mkHandler verify_signature failing_classifier failing_collaborator)
       untyped_request
  = (Ok (JsonResponse (JObj [("error", JStr "Unknown message type")]) 400),
     [LogRecord WARNING "Unknown SNS message type: {}" [ArgValue (JStr "")]]).
Proof.
  apply (post_rejects_unknown_type
           (L := RefLib) failing_classifier failing_collaborator
           untyped_request untyped_payload).
  - vm_compute. reflexivity.
  - vm_compute. discriminate.
  - vm_compute. discriminate.
  - vm_compute. discriminate.
Defined.

Lemma post_raises_on_non_object_body_witness :
  post (L := RefLib)
       (mkHandler verify_signature failing_classifier failing_collaborator)
       list_body_request
  = raise AttributeError.
Proof.
  apply (post_raises_on_non_object_body
           (L := RefLib) failing_classifier failing_collaborator
           list_body_request
           (JArr [JObj [("Type", JStr "Notification")]])).
  - vm_compute. reflexivity.
  - reflexivity.
Defined.

Lemma post_answers_200_or_400_witness :
  status_code (subscription_response subscription_payload) = 200%Z
  \/ status_code (subscription_response subscription_payload) = 400%Z.
Proof.
  apply (post_answers_200_or_400
           (L := RefLib) failing_classifier failing_collaborator
           subscription_request).
  vm_compute. reflexivity.
Defined.

Lemma post_reports_processed_events_witness :
  post (L := RefLib)
       (mkHandler verify_signature (parse_events (L := RefLib))
                  accepting_collaborator)
       (http_of delivery_request)
  = (Ok (JsonResponse
           (JObj [("status", JStr "ok"); ("processed", JInt 2)]) 200),
     []).
Proof.
  apply (post_reports_processed_events
           (L := RefLib) (parse_events (L := RefLib)) accepting_collaborator
           (http_of delivery_request) delivery_payload
           (map (event_of "Delivery" DELIVERED delivery_mail []
                          (Some utc_2024_01_02_03_04_05))
                [JStr "user1@example.com"; JStr "user2@example.com"])
           [] []).
  - vm_compute. reflexivity.
  - reflexivity.
  - vm_compute. reflexivity.
  - reflexivity.
Defined.

Lemma post_propagates_collaborator_exception_witness :
  post (L := RefLib)
       (mkHandler verify_signature (parse_events (L := RefLib))
                  failing_collaborator)
       (http_of delivery_request)
  = (Raise (OtherError "collaborator"),
     [LogRecord ERROR "collaborator invoked" []]).
Proof.
  apply (post_propagates_collaborator_exception
           (L := RefLib) (parse_events (L := RefLib)) failing_collaborator
           (http_of delivery_request) delivery_payload
           (map (event_of "Delivery" DELIVERED delivery_mail []
                          (Some utc_2024_01_02_03_04_05))
                [JStr "user1@example.com"; JStr "user2@example.com"])
           [] (OtherError "collaborator")
           [LogRecord ERROR "collaborator invoked" []]).
  - vm_compute. reflexivity.
  - reflexivity.
  - vm_compute. reflexivity.
  - reflexivity.
Defined.

Lemma post_answers_400_when_classifier_raises_witness :
  post (L := RefLib)
       (mkHandler verify_signature (parse_events (L := RefLib))
                  failing_collaborator)
       (http_of numeric_timestamp_request)
  = (Ok (JsonResponse (JObj [("error", JStr "Failed to parse events")]) 400),
     [LogRecord ERROR "Error parsing SES events: {}" [ArgExn AttributeError]]).
Proof.
  apply (post_answers_400_when_classifier_raises
           (L := RefLib) (parse_events (L := RefLib)) failing_collaborator
           (http_of numeric_timestamp_request) numeric_timestamp_payload
           AttributeError []).
  - vm_compute. reflexivity.
  - reflexivity.
  - vm_compute. reflexivity.
Defined.

Lemma post_answers_401_without_signature_witness :
  post (L := RefLib)
       (mkHandler rejecting_verifier (parse_events (L := RefLib))
                  accepting_collaborator)
       (http_of delivery_request)
  = (Ok (JsonResponse (JObj [("error", JStr "Invalid signature")]) 401),
     [LogRecord WARNING "SNS signature verification failed" []]).
Proof.
  apply (post_answers_401_without_signature
           (L := RefLib)
           (mkHandler rejecting_verifier (parse_events (L := RefLib))
                      accepting_collaborator)
           (http_of delivery_request) []).
  reflexivity.
Defined.

Lemma post_counts_no_event_without_message_witness :
  exists record,
    post (L := RefLib) (SESWebhookHandler accepting_collaborator)
         (http_of empty_message_request)
    = (Ok (JsonResponse
             (JObj [("status", JStr "ok"); ("processed", JInt 0)]) 200),
       [record]).
Proof.
  apply (post_counts_no_event_without_message
           (L := RefLib) accepting_collaborator
           (http_of empty_message_request) empty_message_payload []).
  - vm_compute. reflexivity.
  - reflexivity.
  - left. reflexivity.
  - reflexivity.
Defined.

(** ** Further properties: what [parse_events] does with odd input *)

Ltac enter_delivery H Hty Hd :=
  enter_notification H; enter_kind Hty; rewrite Hd; run;
  change (dict_get ?delivery "recipients"
                   (dict_get ?mail "destination" (JArr [])))
    with (effective_recipients delivery mail).

Section OddInput.

Context {L : PyLib}.

(** X9.  A notification whose [notificationType] is none of ["Delivery"],
    ["Bounce"] and ["Complaint"], be it missing or not even a string,
    yields no event and no error; the type is logged at the level DEBUG. *)
Theorem unmapped_type_yields_no_event request m mail headers ts :
  Notification request m mail headers ts ->
  let kind := dict_get m "notificationType" (JStr "") in
  kind <> JStr "Delivery" ->
  kind <> JStr "Bounce" ->
  kind <> JStr "Complaint" ->
  parse_events request
  = (Ok [],
     [LogRecord DEBUG "Ignoring unmapped SES notification type: {}"
                [ArgValue kind]]).
Proof.
  intros H kind Hd Hb Hc.
  apply (parse_events_unmapped request m mail headers ts H);
    now apply py_eq_str_false.
Qed.

(** X10.  A [Message] that is present but is not text: a falsy one ([null],
    [false], 0, an empty list or object) counts as missing, a truthy one (a
    number, an object) makes [json.loads] raise [TypeError], which
    [parse_events] does not catch. *)
Theorem message_that_is_not_text request p v :
  carries_payload request p ->
  dict_lookup "Message" p = Some v ->
  is_str v = false ->
  parse_events request
  = if truthy v then raise TypeError
    else (Ok [], [LogRecord WARNING "No Message in SNS payload" []]).
Proof.
  intros Hp Hv Hstr. rewrite (parse_events_of_payload request p Hp).
  unfold parse_events. run. unfold dict_get. rewrite Hv.
  destruct (truthy v); cbn [negb]; [|reflexivity].
  destruct v; try discriminate; reflexivity.
Qed.

(** X11.  When the text of [Message] decodes to something that is not an
    object, or to an object whose [mail] or whose [commonHeaders] is not an
    object, [parse_events] raises [AttributeError], whatever the type of the
    notification, and logs nothing. *)
Theorem message_that_is_not_an_object request p text v :
  carries_payload request p ->
  dict_lookup "Message" p = Some (JStr text) ->
  text <> "" ->
  json_loads text = Ok v ->
  is_dict v = false
  \/ (exists m, v = JObj m /\ is_dict (dict_get m "mail" (JObj [])) = false)
  \/ (exists m mail,
         v = JObj m /\ dict_get m "mail" (JObj []) = JObj mail
         /\ is_dict (dict_get mail "commonHeaders" (JObj [])) = false) ->
  parse_events request = raise AttributeError.
Proof.
  intros Hp Hmsg Hne Hdec Hbad.
  rewrite (parse_events_of_payload request p Hp).
  unfold parse_events. run.
  replace (dict_get p "Message" (JStr "")) with (JStr text)
    by (unfold dict_get; now rewrite Hmsg).
  cbn [truthy]. rewrite (string_eqb_neq _ _ Hne). cbn [negb].
  run. rewrite Hdec. run.
  destruct Hbad as [Hv | [(m & -> & Hmail) | (m & mail & -> & Hmail & Hh)]].
  - destruct v; try discriminate; reflexivity.
  - run. destruct (dict_get m "mail" (JObj [])); try discriminate;
      reflexivity.
  - run. rewrite Hmail. run.
    destruct (dict_get mail "commonHeaders" (JObj [])); try discriminate;
      reflexivity.
Qed.

(** X12.  One entry of [bouncedRecipients] or [complainedRecipients] that
    is not an object makes the whole notification fail with
    [AttributeError]: the events of the entries before it are lost too. *)
Theorem entry_that_is_not_an_object request m mail headers ts
        kind section key data infos bad :
  In (kind, section, key) entry_kinds ->
  Notification request m mail headers ts ->
  reports_entries m kind section key data infos ->
  In bad infos ->
  is_dict bad = false ->
  parse_events request = raise AttributeError.
Proof.
  intros Hk H Hrep Hin Hbad.
  rewrite (parse_events_entries request m mail headers ts kind section key
                                data infos Hk H Hrep).
  unfold entries_outcome.
  destruct (forallb is_dict infos) eqn:Hall; [|reflexivity].
  rewrite forallb_forall in Hall. specialize (Hall bad Hin). congruence.
Qed.

(** X13.  A Delivery whose effective recipient list is [null], a boolean or
    a number cannot be iterated: [parse_events] raises [TypeError]. *)
Theorem recipients_that_cannot_be_iterated
        request m mail headers ts delivery :
  Notification request m mail headers ts ->
  dict_get m "notificationType" (JStr "") = JStr "Delivery" ->
  dict_get m "delivery" (JObj []) = JObj delivery ->
  is_iterable (effective_recipients delivery mail) = false ->
  parse_events request = raise TypeError.
Proof.
  intros H Hty Hd Hit. enter_delivery H Hty Hd.
  all: unfold py_for.
  all: destruct (effective_recipients delivery mail); try discriminate;
    reflexivity.
Qed.

(** In text of single-byte characters, every byte is a character. *)
Lemma split_characters_ascii (s : string) :
  is_ascii_text s = true ->
  split_characters s
  = (EmptyString,
     map (fun c => String c EmptyString) (list_ascii_of_string s)).
Proof.
  unfold is_ascii_text.
  induction s as [|c s IH]; [reflexivity|].
  cbn [list_ascii_of_string forallb split_characters map].
  intros H. apply andb_prop in H. destruct H as [Hc Hs].
  rewrite (IH Hs). unfold is_continuation_byte.
  apply Nat.ltb_lt in Hc.
  replace (128 <=? nat_of_ascii c)%nat with false; [reflexivity|].
  symmetry. apply Nat.leb_gt. exact Hc.
Qed.

Lemma str_characters_ascii (s : string) :
  is_ascii_text s = true ->
  map JStr (str_characters s) = characters s.
Proof.
  intros H. unfold str_characters, characters.
  rewrite (split_characters_ascii s H). now rewrite map_map.
Qed.

(** X14.  A Delivery whose effective recipient list is one string of
    single-byte characters, not a list, is no error: it yields one event
    per character of the string, each with that character as recipient. *)
Theorem recipients_that_are_one_string
        request m mail headers ts delivery s :
  Notification request m mail headers ts ->
  dict_get m "notificationType" (JStr "") = JStr "Delivery" ->
  dict_get m "delivery" (JObj []) = JObj delivery ->
  effective_recipients delivery mail = JStr s ->
  is_ascii_text s = true ->
  parse_events request
  = ret (map (event_of "Delivery" DELIVERED mail headers ts) (characters s)).
Proof.
  intros H Hty Hd Hs Hascii. enter_delivery H Hty Hd.
  all: rewrite Hs; unfold py_for; run.
  all: rewrite (str_characters_ascii s Hascii).
  all: apply (for_each_append (event_of "Delivery" DELIVERED mail headers ts)).
Qed.

(** X15.  A timestamp that ends in ["Z"] gives the same result as the same
    timestamp with ["+00:00"] in the place of that ["Z"]. *)
Theorem trailing_Z_is_utc_offset mail1 mail2 s :
  dict_get mail1 "timestamp" JNull = JStr (s ++ "Z") ->
  dict_get mail2 "timestamp" JNull = JStr (s ++ "+00:00") ->
  parse_timestamp (JObj mail1) = parse_timestamp (JObj mail2).
Proof.
  intros H1 H2.
  rewrite (parse_timestamp_of_string mail1 _ H1).
  rewrite (parse_timestamp_of_string mail2 _ H2).
  rewrite str_replace_trailing_Z.
  destruct s; reflexivity.
Qed.

(** X16.  A timestamp string that [fromisoformat] rejects does not stop the
    notification: a Delivery still yields one event per recipient, each
    with no timestamp. *)
Theorem unparsable_timestamp_keeps_events
        request m mail headers delivery rs s :
  carries_mail request m mail headers ->
  dict_get mail "timestamp" JNull = JStr s ->
  fromisoformat (str_replace "Z" "+00:00" s) = None ->
  dict_get m "notificationType" (JStr "") = JStr "Delivery" ->
  dict_get m "delivery" (JObj []) = JObj delivery ->
  effective_recipients delivery mail = JArr rs ->
  parse_events request
  = ret (map (event_of "Delivery" DELIVERED mail headers None) rs).
Proof.
  intros (Hc & Hmail & Hh) Hts Hiso Hty Hd Hrs.
  apply parse_events_delivery with (m := m) (delivery := delivery); trivial.
  split; trivial.
  rewrite (parse_timestamp_of_string mail s Hts), Hiso.
  now destruct (String.eqb s "").
Qed.

(** X17.  A timestamp that is neither falsy nor a string makes
    [parse_events] raise [AttributeError] for every type of notification,
    also for one that would be ignored: the timestamp is read before the
    type is looked at. *)
Theorem timestamp_that_is_not_text request m mail headers :
  carries_mail request m mail headers ->
  truthy (dict_get mail "timestamp" JNull) = true ->
  is_str (dict_get mail "timestamp" JNull) = false ->
  parse_events request = raise AttributeError.
Proof.
  intros ((p & text & Hp & Hmsg & Hne & Hdec) & Hmail & Hh) Ht Hs.
  rewrite (parse_events_of_payload request p Hp).
  unfold parse_events. run.
  replace (dict_get p "Message" (JStr "")) with (JStr text)
    by (unfold dict_get; now rewrite Hmsg).
  cbn [truthy]. rewrite (string_eqb_neq _ _ Hne). cbn [negb].
  run. rewrite Hdec. run. rewrite Hmail. run. rewrite Hh. run.
  now rewrite (parse_timestamp_not_a_string mail Ht Hs).
Qed.

(** X18.  A [bounceType] that is present but is not a string is not
    replaced by the default: with entries that are objects, the events are
    HARD_BOUNCED and their raw event is ["Bounce:"] followed by the
    rendering of that value. *)
Theorem bounce_subtype_that_is_not_text
        request m mail headers ts bounce v infos :
  Notification request m mail headers ts ->
  dict_get m "notificationType" (JStr "") = JStr "Bounce" ->
  dict_get m "bounce" (JObj []) = JObj bounce ->
  dict_lookup "bounceType" bounce = Some v ->
  is_str v = false ->
  dict_get bounce "bouncedRecipients" (JArr []) = JArr infos ->
  forallb is_dict infos = true ->
  parse_events request
  = ret (map (event_of ("Bounce:" ++ py_format v) HARD_BOUNCED
                       mail headers ts)
             (addresses infos)).
Proof.
  intros H Hty Hb Hv Hstr Hi Hall.
  rewrite (parse_events_bounce request m mail headers ts bounce infos
                               H Hty Hb Hi).
  cbv zeta. unfold dict_get at 1 2. rewrite Hv.
  unfold entries_outcome. rewrite Hall.
  replace (bounce_status v) with HARD_BOUNCED; [reflexivity|].
  destruct v; try discriminate; reflexivity.
Qed.

(** X19.  A Delivery, Bounce or Complaint notification that has neither
    [mail] nor the object of its type yields no event, no error and no
    record in the log. *)
Theorem notification_without_lists request m kind :
  carries_message request m ->
  dict_get m "notificationType" (JStr "") = JStr kind ->
  In kind ["Delivery"; "Bounce"; "Complaint"] ->
  dict_lookup "mail" m = None ->
  dict_lookup "delivery" m = None ->
  dict_lookup "bounce" m = None ->
  dict_lookup "complaint" m = None ->
  parse_events request = ret [].
Proof.
  intros Hc Hty Hkind Hmail Hd Hb Hcomp.
  assert (H : Notification request m [] [] None).
  { split; trivial. unfold dict_get. now rewrite Hmail. }
  destruct Hkind as [<- | [<- | [<- | []]]].
  - apply (parse_events_delivery request m [] [] None [] [] H Hty);
      [unfold dict_get; now rewrite Hd | reflexivity].
  - rewrite (parse_events_bounce request m [] [] None [] [] H Hty);
      [reflexivity | unfold dict_get; now rewrite Hb | reflexivity].
  - rewrite (parse_events_complaint request m [] [] None [] [] H Hty);
      [reflexivity | unfold dict_get; now rewrite Hcomp | reflexivity].
Qed.

End OddInput.

Lemma unknown_type_request_notification :
  Notification (L := RefLib) unknown_type_request unknown_type_message
               unknown_type_mail [] None.
Proof. sample_notification. Defined.

Lemma unmapped_type_yields_no_event_witness :
  parse_events (L := RefLib) unknown_type_request
  = (Ok [],
     [LogRecord DEBUG "Ignoring unmapped SES notification type: {}"
                [ArgValue (JStr "UnknownType")]]).
Proof.
  apply (unmapped_type_yields_no_event
           (L := RefLib) unknown_type_request unknown_type_message
           unknown_type_mail [] None).
  - exact unknown_type_request_notification.
  - vm_compute. discriminate.
  - vm_compute. discriminate.
  - vm_compute. discriminate.
Defined.

Lemma message_that_is_not_text_witness :
  parse_events (L := RefLib) (OfPayload (JObj object_message_payload))
  = raise TypeError.
Proof.
  apply (message_that_is_not_text
           (L := RefLib) (OfPayload (JObj object_message_payload))
           object_message_payload
           (JObj [("notificationType", JStr "Delivery")])).
  - reflexivity.
  - reflexivity.
  - reflexivity.
Defined.

Lemma message_that_is_not_an_object_witness :
  parse_events (L := RefLib) list_message_request = raise AttributeError.
Proof.
  apply (message_that_is_not_an_object
           (L := RefLib) list_message_request list_message_payload
           "[1]" (JArr [JInt 1])).
  - reflexivity.
  - reflexivity.
  - discriminate.
  - vm_compute. reflexivity.
  - left. reflexivity.
Defined.

Lemma bare_entry_request_notification :
  Notification (L := RefLib) bare_entry_request
    (bounce_message [entry_user; JStr "other@example.com"])
    bounce_mail [("subject", JStr "Hello")] None.
Proof. sample_notification. Defined.

Lemma entry_that_is_not_an_object_witness :
  parse_events (L := RefLib) bare_entry_request = raise AttributeError.
Proof.
  apply (entry_that_is_not_an_object
           (L := RefLib) bare_entry_request
           (bounce_message [entry_user; JStr "other@example.com"])
           bounce_mail [("subject", JStr "Hello")] None
           "Bounce" "bounce" "bouncedRecipients"
           (bounce_data [entry_user; JStr "other@example.com"])
           [entry_user; JStr "other@example.com"]
           (JStr "other@example.com")).
  - left. reflexivity.
  - exact bare_entry_request_notification.
  - repeat split.
  - right. left. reflexivity.
  - reflexivity.
Defined.

Lemma null_recipients_request_notification :
  Notification (L := RefLib) null_recipients_request
    (delivery_message_with JNull (JStr "2024-01-02T03:04:05Z"))
    (delivery_mail_with (JStr "2024-01-02T03:04:05Z")) []
    (Some utc_2024_01_02_03_04_05).
Proof. sample_notification. Defined.

Lemma recipients_that_cannot_be_iterated_witness :
  parse_events (L := RefLib) null_recipients_request = raise TypeError.
Proof.
  apply (recipients_that_cannot_be_iterated
           (L := RefLib) null_recipients_request
           (delivery_message_with JNull (JStr "2024-01-02T03:04:05Z"))
           (delivery_mail_with (JStr "2024-01-02T03:04:05Z")) []
           (Some utc_2024_01_02_03_04_05) [("recipients", JNull)]).
  - exact null_recipients_request_notification.
  - reflexivity.
  - reflexivity.
  - reflexivity.
Defined.

Lemma string_recipients_request_notification :
  Notification (L := RefLib) string_recipients_request
    (delivery_message_with (JStr "a@b.c") (JStr "2024-01-02T03:04:05Z"))
    (delivery_mail_with (JStr "2024-01-02T03:04:05Z")) []
    (Some utc_2024_01_02_03_04_05).
Proof. sample_notification. Defined.

Lemma recipients_that_are_one_string_witness :
  parse_events (L := RefLib) string_recipients_request
  = ret (map (event_of "Delivery" DELIVERED
                       (delivery_mail_with (JStr "2024-01-02T03:04:05Z")) []
                       (Some utc_2024_01_02_03_04_05))
             [JStr "a"; JStr "@"; JStr "b"; JStr "."; JStr "c"]).
Proof.
  apply (recipients_that_are_one_string
           (L := RefLib) string_recipients_request
           (delivery_message_with (JStr "a@b.c") (JStr "2024-01-02T03:04:05Z"))
           (delivery_mail_with (JStr "2024-01-02T03:04:05Z")) []
           (Some utc_2024_01_02_03_04_05) [("recipients", JStr "a@b.c")]
           "a@b.c").
  - exact string_recipients_request_notification.
  - reflexivity.
  - reflexivity.
  - reflexivity.
  - reflexivity.
Defined.

Lemma trailing_Z_is_utc_offset_witness :
  parse_timestamp (L := RefLib) (JObj delivery_mail)
  = parse_timestamp (L := RefLib) (JObj offset_mail).
Proof.
  apply (trailing_Z_is_utc_offset
           (L := RefLib) delivery_mail offset_mail "2024-01-02T03:04:05").
  - reflexivity.
  - reflexivity.
Defined.

Lemma unparsable_timestamp_request_mail :
  carries_mail (L := RefLib) unparsable_timestamp_request
    (delivery_message_with (JArr [JStr "user@example.com"]) (JStr "yesterday"))
    (delivery_mail_with (JStr "yesterday")) [].
Proof. sample_mail. Defined.

Lemma unparsable_timestamp_keeps_events_witness :
  parse_events (L := RefLib) unparsable_timestamp_request
  = ret [event_of "Delivery" DELIVERED (delivery_mail_with (JStr "yesterday"))
                  [] None (JStr "user@example.com")].
Proof.
  apply (unparsable_timestamp_keeps_events
           (L := RefLib) unparsable_timestamp_request
           (delivery_message_with (JArr [JStr "user@example.com"])
                                  (JStr "yesterday"))
           (delivery_mail_with (JStr "yesterday")) []
           [("recipients", JArr [JStr "user@example.com"])]
           [JStr "user@example.com"] "yesterday").
  - exact unparsable_timestamp_request_mail.
  - reflexivity.
  - vm_compute. reflexivity.
  - reflexivity.
  - reflexivity.
  - reflexivity.
Defined.

Lemma numeric_timestamp_request_mail :
  carries_mail (L := RefLib) numeric_timestamp_request
               numeric_timestamp_message numeric_timestamp_mail [].
Proof. sample_mail. Defined.

Lemma timestamp_that_is_not_text_witness :
  parse_events (L := RefLib) numeric_timestamp_request = raise AttributeError.
Proof.
  apply (timestamp_that_is_not_text
           (L := RefLib) numeric_timestamp_request numeric_timestamp_message
           numeric_timestamp_mail []).
  - exact numeric_timestamp_request_mail.
  - reflexivity.
  - reflexivity.
Defined.

Lemma null_subtype_request_notification :
  Notification (L := RefLib) null_subtype_request null_subtype_message
               [] [] None.
Proof. sample_notification. Defined.

Lemma bounce_subtype_that_is_not_text_witness :
  parse_events (L := RefLib) null_subtype_request
  = ret [event_of "Bounce:None" HARD_BOUNCED [] [] None
                  (JStr "user@example.com")].
Proof.
  apply (bounce_subtype_that_is_not_text
           (L := RefLib) null_subtype_request null_subtype_message [] [] None
           null_subtype_data JNull [entry_user]).
  - exact null_subtype_request_notification.
  - reflexivity.
  - reflexivity.
  - reflexivity.
  - reflexivity.
  - reflexivity.
  - reflexivity.
Defined.

Lemma notification_without_lists_witness :
  parse_events (L := RefLib) bare_complaint_request = ret [].
Proof.
  apply (notification_without_lists
           (L := RefLib) bare_complaint_request bare_complaint_message
           "Complaint").
  - sample_message.
  - reflexivity.
  - right. right. left. reflexivity.
  - reflexivity.
  - reflexivity.
  - reflexivity.
  - reflexivity.
Defined.

(** ** Further properties: the log of [parse_events] *)

Lemma silent_raise e : logs_at_most_once (raise (A := list ESPEvent) e).
Proof. now left. Qed.

Lemma silent_entries_outcome mk infos :
  logs_at_most_once (entries_outcome mk infos).
Proof.
  unfold entries_outcome. destruct (forallb is_dict infos); now left.
Qed.

Ltac replace_run m lemma :=
  match goal with
  | |- logs_at_most_once ?x => replace x with m by (symmetry; exact lemma)
  end.

Section Logging.

Context {L : PyLib}.

(** X22.  Whatever the request, [parse_events] writes at most one record to
    the log, and only when it returns no event: the error of a body that is
    not JSON (raised again), the warning of a missing message, the error of
    a message that does not decode, or the note of an unmapped type.  A
    call that returns events, or that raises another exception, logs
    nothing. *)
Theorem parse_events_logs_at_most_once request :
  logs_at_most_once (parse_events request).
Proof.
  unfold parse_events.
  match goal with
  | |- logs_at_most_once (bind _ ?k) =>
      assert (Hk : forall payload, logs_at_most_once (k payload))
  end.
  2: { destruct request as [http | payload].
       - unfold json_loads_body.
         destruct (json_loads_bytes (body http)) as [payload | e].
         + rewrite lift_ok, try_except_ret, bind_ret_l. apply Hk.
         + destruct e; first [now left | right; left; reflexivity].
       - rewrite bind_ret_l. apply Hk. }
  intros payload.
  destruct payload; try apply silent_raise. run.
  destruct (truthy (dict_get members "Message" (JStr ""))); cbn [negb];
    [|right; right; left; reflexivity].
  destruct (dict_get members "Message" (JStr "")); try apply silent_raise.
  cbn [py_json_loads]. destruct (json_loads s) as [message | e];
    [|destruct e;
      first [now left | right; right; right; left; reflexivity]].
  run.
  destruct message as [| | | | |? |m]; try apply silent_raise.
  run.
  destruct (dict_get m "mail" (JObj [])) as [| | | | |? |mail];
    try apply silent_raise.
  run.
  destruct (dict_get mail "commonHeaders" (JObj [])) as [| | | | |? |headers];
    try apply silent_raise.
  run.
  destruct (parse_timestamp_cases (JObj mail)) as [[ts ->] | [e ->]];
    [|apply silent_raise].
  rewrite bind_ret_l.
  destruct (py_eq_str _ "Delivery").
  { destruct (dict_get m "delivery" (JObj [])) as [| | | | |? |delivery];
      try apply silent_raise.
    run. unfold py_for.
    destruct (dict_get delivery "recipients"
                       (dict_get mail "destination" (JArr [])));
      try apply silent_raise;
      run;
      match goal with
      | |- logs_at_most_once (for_each ?items _ _) =>
          replace_run
            (ret (map (event_of "Delivery" DELIVERED mail headers ts) items))
            (for_each_append (event_of "Delivery" DELIVERED mail headers ts)
                             items [])
      end; now left. }
  destruct (py_eq_str _ "Bounce").
  { destruct (dict_get m "bounce" (JObj [])) as [| | | | |? |bounce];
      try apply silent_raise.
    run. unfold py_for.
    pose (mk := event_of
                  ("Bounce:" ++
                   py_format (dict_get bounce "bounceType" (JStr "Permanent")))
                  (bounce_status
                     (dict_get bounce "bounceType" (JStr "Permanent")))
                  mail headers ts).
    destruct (dict_get bounce "bouncedRecipients" (JArr []));
      try apply silent_raise;
      run;
      match goal with
      | |- logs_at_most_once (for_each ?items _ _) =>
          replace_run (entries_outcome mk items)
                      (for_each_entries mk items [])
      end; apply silent_entries_outcome. }
  destruct (py_eq_str _ "Complaint").
  { destruct (dict_get m "complaint" (JObj [])) as [| | | | |? |complaint];
      try apply silent_raise.
    run. unfold py_for.
    pose (mk := event_of "Complaint" SPAM_COMPLAINT mail headers ts).
    destruct (dict_get complaint "complainedRecipients" (JArr []));
      try apply silent_raise;
      run;
      match goal with
      | |- logs_at_most_once (for_each ?items _ _) =>
          replace_run (entries_outcome mk items)
                      (for_each_entries mk items [])
      end; apply silent_entries_outcome. }
  right. right. right. right. eexists. reflexivity.
Qed.

End Logging.

(** ** Further properties: exceptions of [json.loads] other than
    [JSONDecodeError] *)

Section OtherExceptions.

Context {L : PyLib}.

(** X23.  When [json.loads] raises on the text of [Message] something else
    than [JSONDecodeError] (a [RecursionError] on deep nesting, a
    [ValueError] on an integer of too many digits), [parse_events] does not
    catch it: the exception leaves [parse_events] and nothing is logged. *)
Theorem message_decoding_exception_propagates request p text e :
  carries_payload request p ->
  dict_lookup "Message" p = Some (JStr text) ->
  text <> "" ->
  json_loads text = Raise e ->
  e <> JSONDecodeError ->
  parse_events request = raise e.
Proof.
  intros Hp Hmsg Hne Hdec He.
  rewrite (parse_events_of_payload request p Hp).
  unfold parse_events. run.
  replace (dict_get p "Message" (JStr "")) with (JStr text)
    by (unfold dict_get; now rewrite Hmsg).
  cbn [truthy]. rewrite (string_eqb_neq _ _ Hne). cbn [negb py_json_loads].
  rewrite Hdec. destruct e; try reflexivity. congruence.
Qed.

(** X24.  When [json.loads] raises on the body of the request something
    else than [JSONDecodeError] (a [UnicodeDecodeError] on bytes that are no
    text, a [RecursionError] on deep nesting), [post] does not catch it: the
    exception leaves [post], which answers nothing and logs nothing. *)
Theorem post_propagates_body_exception
        (classifier : request_or_payload -> M (list ESPEvent))
        (collaborator : list ESPEvent -> json -> M unit) request e :
  json_loads_bytes (body request) = Raise e ->
  e <> JSONDecodeError ->
  post (mkHandler verify_signature classifier collaborator) request
  = raise e.
Proof.
  intros Hbody He. enter_post Hbody.
  destruct e; try reflexivity. congruence.
Qed.

End OtherExceptions.

Lemma message_decoding_exception_propagates_witness :
  parse_events (L := RefLib) (OfPayload (JObj deep_message_payload))
  = raise RecursionError.
Proof.
  apply (message_decoding_exception_propagates
           (L := RefLib) (OfPayload (JObj deep_message_payload))
           deep_message_payload (repeat_char 2048 "[") RecursionError).
  - reflexivity.
  - reflexivity.
  - discriminate.
  - vm_compute. reflexivity.
  - discriminate.
Defined.

Lemma post_propagates_body_exception_witness :
  post (L := RefLib)
       (mkHandler verify_signature failing_classifier failing_collaborator)
       invalid_utf8_request
  = raise UnicodeDecodeError.
Proof.
  apply (post_propagates_body_exception
           (L := RefLib) failing_classifier failing_collaborator
           invalid_utf8_request UnicodeDecodeError).
  - vm_compute. reflexivity.
  - discriminate.
Defined.
